(** * suivi-formation-api: the document filler and its HTTP handlers

    A shallow embedding of [flask_server.py].  The server receives a JSON
    record describing a training session, writes its fields into fixed cells
    of a Word template and sends the filled document back.

    Layout of the development:
    - [PyStr]   Python [str] values and the three string methods the server
                uses ([replace], [strip], [os.path.join]);
    - [Py]      JSON-decoded Python values, exceptions and the dynamic
                operations applied to them ([in], [[]], [.get], slicing);
    - [Docx]    the table/row/cell view of a Word document;
    - [Server]  the world the server runs in, the state-and-exception monad,
                [fill_suivi_formation], [fill_document] and [test_fill];
    - the properties of the filler and of the handlers. *)

From Stdlib Require Import PrimFloat Ascii String.
From stdpp Require Import base option list gmap strings.

Set Warnings "-register-all".
Set Default Proof Using "Type".

(** ** Python strings *)

Module PyStr.

(** A Python [str] is a sequence of Unicode code points. *)
Abbreviation pystr := (list N).

(** String literals of the source are UTF-8 text; [py] reads one as the
    [str] it denotes.  [acc] holds the bits of a code point read so far and
    [more] the number of continuation bytes still expected. *)
Fixpoint decode_utf8 (acc : N) (more : nat) (bs : list N) : pystr :=
  match bs with
  | [] => []
  | b :: bs' =>
      match more with
      | O =>
          if (b <? 128)%N then b :: decode_utf8 0 0 bs'
          else if (b <? 224)%N then decode_utf8 (b - 192) 1 bs'
          else if (b <? 240)%N then decode_utf8 (b - 224) 2 bs'
          else decode_utf8 (b - 240) 3 bs'
      | S O => (acc * 64 + (b - 128))%N :: decode_utf8 0 0 bs'
      | S k => decode_utf8 (acc * 64 + (b - 128)) k bs'
      end
  end.

Definition py (s : string) : pystr :=
  decode_utf8 0 0 (N_of_ascii <$> list_ascii_of_string s).

#[global] Arguments py : simpl never.

Fixpoint startswith (p s : pystr) : bool :=
  match p, s with
  | [], _ => true
  | _ :: _, [] => false
  | a :: p', b :: s' => (a =? b)%N && startswith p' s'
  end.

Definition endswith (p s : pystr) : bool := startswith (reverse p) (reverse s).

(** [k in s] for two strings: [k] occurs somewhere in [s]. *)
Fixpoint contains (k s : pystr) : bool :=
  startswith k s || match s with [] => false | _ :: s' => contains k s' end.

(** [s.replace(old, new)] scans [s] from the left and substitutes every
    occurrence of [old] that does not overlap an earlier one.  [skip] counts
    the characters of a matched occurrence still to be passed over. *)
Fixpoint replace_from (old new : pystr) (skip : nat) (s : pystr) : pystr :=
  match s with
  | [] => []
  | c :: s' =>
      match skip with
      | S k => replace_from old new k s'
      | O =>
          if startswith old s
          then new ++ replace_from old new (length old - 1) s'
          else c :: replace_from old new 0 s'
      end
  end.

Definition replace (old new s : pystr) : pystr :=
  match old with
  | [] => new ++ flat_map (λ c, c :: new) s
  | _ :: _ => replace_from old new 0 s
  end.

(** The characters [str.strip()] removes: those for which [str.isspace()]
    holds. *)
Definition isspace (c : N) : bool :=
  ((9 <=? c) && (c <=? 13) || (28 <=? c) && (c <=? 32)
   || (c =? 133) || (c =? 160) || (c =? 5760)
   || (8192 <=? c) && (c <=? 8202)
   || (c =? 8232) || (c =? 8233) || (c =? 8239) || (c =? 8287)
   || (c =? 12288))%N.

Fixpoint lstrip (s : pystr) : pystr :=
  match s with
  | [] => []
  | c :: s' => if isspace c then lstrip s' else s
  end.

Definition rstrip (s : pystr) : pystr := reverse (lstrip (reverse s)).

Definition strip (s : pystr) : pystr := rstrip (lstrip s).

(** [os.path.join(a, b)] of [posixpath]. *)
Definition path_join (a b : pystr) : pystr :=
  if startswith (py "/") b then b
  else if bool_decide (a = []) || endswith (py "/") a then a ++ b
  else a ++ py "/" ++ b.

End PyStr.
Export PyStr.

(** ** Python values *)

Module Py.

(** What [json.loads] produces: [None], booleans, integers, floats, strings,
    lists and dictionaries with string keys (in insertion order, each key
    once). *)
Inductive pyval :=
  | PNone
  | PBool (b : bool)
  | PInt (z : Z)
  | PFloat (f : float)
  | PStr (s : pystr)
  | PList (l : list pyval)
  | PDict (d : list (pystr * pyval)).

Abbreviation dict := (list (pystr * pyval)).

(** An exception instance, as the handlers observe it: [type(e).__name__]
    and [str(e)]. *)
Record exn := Exn { exn_type : pystr; exn_str : pystr }.

(** A computation that returns or raises. *)
Abbreviation result A := (exn + A)%type.

Definition type_name (v : pyval) : pystr :=
  match v with
  | PNone => py "NoneType"
  | PBool _ => py "bool"
  | PInt _ => py "int"
  | PFloat _ => py "float"
  | PStr _ => py "str"
  | PList _ => py "list"
  | PDict _ => py "dict"
  end.

(** [bool(v)], the test behind [if not data]. *)
Definition truthy (v : pyval) : bool :=
  match v with
  | PNone => false
  | PBool b => b
  | PInt z => negb (z =? 0)%Z
  | PFloat f => negb (f =? 0)%float
  | PStr s => negb (bool_decide (s = []))
  | PList l => negb (bool_decide (length l = 0))
  | PDict d => negb (bool_decide (length d = 0))
  end.

Fixpoint dict_get (k : pystr) (d : dict) : option pyval :=
  match d with
  | [] => None
  | (k', v) :: d' => if bool_decide (k' = k) then Some v else dict_get k d'
  end.

Definition TypeError (msg : pystr) : exn := Exn (py "TypeError") msg.
Definition AttributeError (msg : pystr) : exn := Exn (py "AttributeError") msg.
Definition KeyError (key : pystr) : exn :=
  Exn (py "KeyError") (py "'" ++ key ++ py "'").
Definition IndexError (msg : pystr) : exn := Exn (py "IndexError") msg.

Definition no_attribute (v : pyval) (name : string) : exn :=
  AttributeError
    (py "'" ++ type_name v ++ py "' object has no attribute '" ++ py name ++ py "'").

Definition not_subscriptable (v : pyval) : exn :=
  TypeError (py "'" ++ type_name v ++ py "' object is not subscriptable").

(** [k in v] for a string [k]: key membership in a dictionary, element
    membership in a list, substring test in a string; the other values are
    not containers. *)
Definition py_in (k : pystr) (v : pyval) : result bool :=
  match v with
  | PDict d => inr (bool_decide (is_Some (dict_get k d)))
  | PList l =>
      inr (existsb (λ x, match x with PStr s => bool_decide (s = k) | _ => false end) l)
  | PStr s => inr (contains k s)
  | _ => inl (TypeError (py "argument of type '" ++ type_name v ++ py "' is not iterable"))
  end.

(** [v[k]] for a string [k]. *)
Definition py_getitem (v : pyval) (k : pystr) : result pyval :=
  match v with
  | PDict d =>
      match dict_get k d with
      | Some x => inr x
      | None => inl (KeyError k)
      end
  | PList _ => inl (TypeError (py "list indices must be integers or slices, not str"))
  | PStr _ => inl (TypeError (py "string indices must be integers, not 'str'"))
  | _ => inl (not_subscriptable v)
  end.

(** [v.get(k, dflt)]. *)
Definition py_get (v : pyval) (k : pystr) (dflt : pyval) : result pyval :=
  match v with
  | PDict d => inr (default dflt (dict_get k d))
  | _ => inl (no_attribute v "get")
  end.

(** [v.replace(old, new)]: only strings have the method; the result is a
    string again. *)
Definition py_replace (v : pyval) (old new : pystr) : result pystr :=
  match v with
  | PStr s => inr (replace old new s)
  | _ => inl (no_attribute v "replace")
  end.

(** [v[:n]]. *)
Definition py_slice_to (n : nat) (v : pyval) : result pyval :=
  match v with
  | PList l => inr (PList (take n l))
  | PStr s => inr (PStr (take n s))
  | PDict _ => inl (TypeError (py "unhashable type: 'slice'"))
  | _ => inl (not_subscriptable v)
  end.

(** The items a [for] loop over [v] visits. *)
Definition py_iter (v : pyval) : result (list pyval) :=
  match v with
  | PList l => inr l
  | PStr s => inr ((λ c, PStr [c]) <$> s)
  | PDict d => inr ((λ kv, PStr kv.1) <$> d)
  | _ => inl (TypeError (py "'" ++ type_name v ++ py "' object is not iterable"))
  end.

End Py.
Export Py.

(** ** Word documents *)

Module Docx.

(** A document as the filler sees it through python-docx: its tables by
    index, each table's rows by index, each row's cells by index, and one
    text per cell. *)
Abbreviation row := (list pystr).
Abbreviation table := (list (list pystr)).
Abbreviation document := (list (list (list pystr))).

Definition cell_at (D : document) (t r c : nat) : option pystr :=
  T ← D !! t; R ← T !! r; R !! c.

(** Assigning [s] to the text of an existing cell replaces that text. *)
Definition set_cell (t r c : nat) (s : pystr) (D : document) : document :=
  alter (alter (<[c := s]>) r) t D.

End Docx.
Export Docx.

(** ** The server *)

Module Server.

(** *** The world *)

(** A file is a Word document python-docx can open, or content that makes
    [Document(path)] raise [e]. *)
Inductive file :=
  | DocxFile (D : document)
  | NotDocx (e : exn).

(** The calendar date [datetime.now()] reads. *)
Record datetime := Date { year : Z; month : Z; day : Z }.

Inductive event :=
  | EvOpen (path : pystr)
  | EvSave (path : pystr).

(** What a request can observe or change: the file system, the [Document]
    objects in memory, the clock, the directory [tempfile.gettempdir()]
    names, the failure (if any) of writing to a path, what python-docx makes
    of a non-string assigned to a cell text, and the log of the calls made
    to python-docx. *)
Record world := World {
  w_fs : gmap pystr file;
  w_objs : list document;
  w_clock : datetime;
  w_tmpdir : pystr;
  w_save_error : pystr → option exn;
  w_nonstr_text : pyval → result pystr;
  w_trace : list event
}.

Definition with_fs (f : gmap pystr file) (w : world) : world :=
  World f (w_objs w) (w_clock w) (w_tmpdir w) (w_save_error w) (w_nonstr_text w) (w_trace w).
Definition with_objs (o : list document) (w : world) : world :=
  World (w_fs w) o (w_clock w) (w_tmpdir w) (w_save_error w) (w_nonstr_text w) (w_trace w).
Definition log (ev : event) (w : world) : world :=
  World (w_fs w) (w_objs w) (w_clock w) (w_tmpdir w) (w_save_error w) (w_nonstr_text w)
    (w_trace w ++ [ev]).

(** *** State and exceptions *)

Definition M (A : Type) : Type := world → result A * world.

#[global] Instance M_ret : MRet M := λ A a w, (inr a, w).
#[global] Instance M_bind : MBind M := λ A B f m w,
  match m w with
  | (inr a, w') => f a w'
  | (inl e, w') => (inl e, w')
  end.

Definition raise {A} (e : exn) : M A := λ w, (inl e, w).

Definition lift {A} (r : result A) : M A := λ w, (r, w).

(** [try: body except Exception as e: handler(e)]. *)
Definition try_except {A} (body : M A) (handler : exn → M A) : M A := λ w,
  match body w with
  | (inr a, w') => (inr a, w')
  | (inl e, w') => handler e w'
  end.

(** *** python-docx *)

Definition out_of_range : exn := IndexError (py "list index out of range").

(** [Document(path)]: a fresh object holding the document read from
    [path]. *)
Definition Document (path : pystr) : M nat := λ w,
  match w_fs w !! path with
  | Some (DocxFile D) =>
      (inr (length (w_objs w)), with_objs (w_objs w ++ [D]) (log (EvOpen path) w))
  | Some (NotDocx e) => (inl e, log (EvOpen path) w)
  | None =>
      (inl (Exn (py "PackageNotFoundError") (py "Package not found at '" ++ path ++ py "'")),
       log (EvOpen path) w)
  end.

Definition deref (doc : nat) : M document := λ w,
  match w_objs w !! doc with
  | Some D => (inr D, w)
  | None => (inl (Exn (py "ReferenceError") (py "no such object")), w)
  end.

Definition store (doc : nat) (D : document) : M unit := λ w,
  (inr (), with_objs (<[doc := D]> (w_objs w)) w).

(** [doc.tables[i]]: the table is designated by its document and index. *)
Definition tables (doc i : nat) : M (nat * nat) :=
  D ← deref doc;
  match D !! i with
  | Some _ => mret (doc, i)
  | None => raise out_of_range
  end.

Definition text_of (v : pyval) : M pystr := λ w,
  match v with
  | PStr s => (inr s, w)
  | _ => (w_nonstr_text w v, w)
  end.

(** [tbl.rows[r].cells[c].text = v], the value [v] already evaluated. *)
Definition set_text (tbl : nat * nat) (r c : nat) (v : pyval) : M unit :=
  D ← deref tbl.1;
  match D !! tbl.2 ≫= (.!! r) with
  | None => raise out_of_range
  | Some R =>
      match R !! c with
      | None => raise out_of_range
      | Some _ =>
          s ← text_of v;
          store tbl.1 (set_cell tbl.2 r c s D)
      end
  end.

Definition write_file (path : pystr) (f : file) : M unit := λ w,
  match w_save_error w path with
  | Some e => (inl e, log (EvSave path) w)
  | None => (inr (), with_fs (<[path := f]> (w_fs w)) (log (EvSave path) w))
  end.

(** [doc.save(path)]. *)
Definition save (doc : nat) (path : pystr) : M unit :=
  D ← deref doc;
  write_file path (DocxFile D).

(** *** datetime, tempfile *)

Definition digit (n : Z) : N := Z.to_N (48 + n mod 10).

(** [datetime.now().strftime('%d/%m/%Y')]: day and month on two digits, year
    on four (the years [datetime.now()] returns have four). *)
Definition strftime_dmY (d : datetime) : pystr :=
  ([digit (day d / 10); digit (day d)] ++ py "/"
   ++ [digit (month d / 10); digit (month d)] ++ py "/"
   ++ [digit (year d / 1000); digit (year d / 100); digit (year d / 10); digit (year d)])%Z.

Definition now : M datetime := λ w, (inr (w_clock w), w).

Definition gettempdir : M pystr := λ w, (inr (w_tmpdir w), w).

(** *** The document filler *)

Definition has (k : pystr) (data : pyval) : M bool := lift (py_in k data).

Definition item (data : pyval) (k : pystr) : M pyval := lift (py_getitem data k).

(** [if k in data: body]. *)
Definition when_in (k : pystr) (data : pyval) (body : M unit) : M unit :=
  present ← has k data;
  if present : bool then body else mret ().

(** [for i, x in enumerate(items): body], counting from [i]. *)
Fixpoint for_enumerate (i : nat) (items : list pyval) (body : nat → pyval → M unit)
    : M unit :=
  match items with
  | [] => mret ()
  | x :: rest => body i x;; for_enumerate (S i) rest body
  end.

Definition fill_suivi_formation (data : pyval) (template_path : pystr)
    : M (pystr * pystr) :=
  doc ← Document template_path;
  (* TABLE 0 *)
  table0 ← tables doc 0;
  when_in (py "affectation") data
    (v ← item data (py "affectation"); set_text table0 0 1 v;;
     v ← item data (py "affectation"); set_text table0 1 1 v);;
  when_in (py "semaine") data
    (v ← item data (py "semaine"); set_text table0 2 1 v);;
  when_in (py "formateur") data
    (v ← item data (py "formateur"); set_text table0 3 1 v);;
  when_in (py "referent") data
    (v ← item data (py "referent"); set_text table0 4 1 v);;
  when_in (py "horaires") data
    (v ← item data (py "horaires"); set_text table0 5 1 v);;
  when_in (py "numero_action") data
    (v ← item data (py "numero_action"); set_text table0 6 1 v);;
  present ← has (py "date_redaction") data;
  (if present : bool
   then v ← item data (py "date_redaction"); set_text table0 7 1 v
   else d ← now; set_text table0 7 1 (PStr (strftime_dmY d)));;
  when_in (py "observations_groupe") data
    (v ← item data (py "observations_groupe"); set_text table0 8 1 v);;
  (* TABLE 2 *)
  table2 ← tables doc 2;
  when_in (py "themes_modules") data
    (v ← item data (py "themes_modules"); set_text table2 0 1 v);;
  when_in (py "previsions") data
    (v ← item data (py "previsions"); set_text table2 1 1 v);;
  (* TABLE 3 *)
  table3 ← tables doc 3;
  when_in (py "apprenants") data
    (apprenants ← item data (py "apprenants");
     first9 ← lift (py_slice_to 9 apprenants);
     items ← lift (py_iter first9);
     for_enumerate 0 items (λ i apprenant,
       let row_index := i + 1 in
       when_in (py "nom") apprenant
         (v ← item apprenant (py "nom"); set_text table3 row_index 0 v);;
       when_in (py "prenom") apprenant
         (v ← item apprenant (py "prenom"); set_text table3 row_index 1 v);;
       when_in (py "observation") apprenant
         (v ← item apprenant (py "observation"); set_text table3 row_index 2 v)));;
  (* output file name *)
  a ← lift (py_get data (py "affectation") (PStr (py "FORMATION")));
  a ← lift (py_replace a (py "/") (py "-"));
  let affectation := replace (py " ") (py "_") a in
  s ← lift (py_get data (py "semaine") (PStr (py "")));
  s ← lift (py_replace s (py "Du ") (py ""));
  let semaine :=
    strip (replace (py " ") (py "_")
      (replace (py "/") (py "-") (replace (py " au ") (py "_au_") s))) in
  let output_filename :=
    py "SUIVI_FORMATION_" ++ affectation ++ py "_" ++ semaine ++ py ".docx" in
  temp_dir ← gettempdir;
  let output_path := path_join temp_dir output_filename in
  save doc output_path;;
  mret (output_path, output_filename).

(** *** The HTTP handlers *)

(** Flask's [request], reduced to what the handler asks of it: the outcome
    of [request.get_json()], which is [None] when the request carries no
    body to decode. *)
Record request := Request { get_json : result pyval }.

Inductive response :=
  | JsonResponse (body : pyval) (status : nat)
  | FileResponse (content : file) (as_attachment : bool) (download_name mimetype : pystr).

Definition jsonify (body : dict) : pyval := PDict body.

Definition send_file (path : pystr) (as_attachment : bool)
    (download_name mimetype : pystr) : M response := λ w,
  match w_fs w !! path with
  | Some f => (inr (FileResponse f as_attachment download_name mimetype), w)
  | None =>
      (inl (Exn (py "FileNotFoundError")
              (py "[Errno 2] No such file or directory: '" ++ path ++ py "'")), w)
  end.

Definition docx_mimetype : pystr :=
  py "application/vnd.openxmlformats-officedocument.wordprocessingml.document".

Definition error_response (e : exn) : response :=
  JsonResponse
    (jsonify [(py "error", PStr (exn_str e)); (py "type", PStr (exn_type e))]) 500.

Definition fill_document (TEMPLATE_PATH : pystr) (request : request) : M response :=
  try_except
    (data ← lift (get_json request);
     if negb (truthy data)
     then mret (JsonResponse (jsonify [(py "error", PStr (py "Aucune donnée fournie"))]) 400)
     else
       '(output_path, output_filename) ← fill_suivi_formation data TEMPLATE_PATH;
       send_file output_path true output_filename docx_mimetype)
    (λ e, mret (error_response e)).

Definition LF : pystr := [10%N].

Definition test_data (date_redaction : pystr) : pyval :=
  PDict [
    (py "affectation", PStr (py "CAP 2 OLBER - TEST"));
    (py "semaine", PStr (py "Du 24/03/2025 au 26/03/2025"));
    (py "formateur", PStr (py "Yves Sournac"));
    (py "referent", PStr (py "Jean-François SOLLEAU"));
    (py "horaires", PStr (py "8h-12h / 13h-17h"));
    (py "numero_action", PStr (py "25SF1353"));
    (py "date_redaction", PStr date_redaction);
    (py "observations_groupe", PStr (py "Groupe test - Automatisation réussie !"));
    (py "themes_modules",
      PStr (py "CP1 - Réception de marchandises" ++ LF
            ++ py "Contrôle quantitatif et qualitatif" ++ LF
            ++ py "Utilisation du scan"));
    (py "previsions", PStr (py "CP2 - Stockage et rangement en zone dédiée"));
    (py "apprenants", PList [
      PDict [(py "nom", PStr (py "DUPONT")); (py "prenom", PStr (py "Jean"));
             (py "observation", PStr (py "Très investi, bonne compréhension des concepts"))];
      PDict [(py "nom", PStr (py "MARTIN")); (py "prenom", PStr (py "Sophie"));
             (py "observation", PStr (py "Quelques difficultés sur le scan, à accompagner"))];
      PDict [(py "nom", PStr (py "BERNARD")); (py "prenom", PStr (py "Lucas"));
             (py "observation", PStr (py "Absent cette semaine"))]])
  ].

Definition test_fill (TEMPLATE_PATH : pystr) : M response :=
  d ← now;
  let test_data := test_data (strftime_dmY d) in
  try_except
    ('(output_path, output_filename) ← fill_suivi_formation test_data TEMPLATE_PATH;
     send_file output_path true output_filename docx_mimetype)
    (λ e, mret (error_response e)).

End Server.
Export Server.

(** ** The data model and the fixed layout *)

Module Layout.

(** The optional string fields of a training report record. *)
Definition string_fields : list pystr :=
  [py "affectation"; py "semaine"; py "formateur"; py "referent"; py "horaires";
   py "numero_action"; py "date_redaction"; py "observations_groupe";
   py "themes_modules"; py "previsions"].

Definition learner_fields : list pystr := [py "nom"; py "prenom"; py "observation"].

(** A field is absent, or present with a string value. *)
Definition str_or_absent (d : dict) (k : pystr) : bool :=
  match dict_get k d with
  | None | Some (PStr _) => true
  | Some _ => false
  end.

Definition valid_learner (v : pyval) : bool :=
  match v with
  | PDict e => forallb (str_or_absent e) learner_fields
  | _ => false
  end.

(** A training report record: a mapping whose known fields, when present,
    are strings, and whose [apprenants], when present, is a sequence of
    learner entries. *)
Definition valid_record (data : pyval) : bool :=
  match data with
  | PDict d =>
      forallb (str_or_absent d) string_fields
      && match dict_get (py "apprenants") d with
         | None => true
         | Some (PList l) => forallb valid_learner l
         | Some _ => false
         end
  | _ => false
  end.

(** The string a record gives for a field, if any. *)
Definition field (data : pyval) (k : pystr) : option pystr :=
  match data with
  | PDict d => match dict_get k d with Some (PStr s) => Some s | _ => None end
  | _ => None
  end.

(** The learner entries of a record; none when [apprenants] is absent. *)
Definition apprenants_of (data : pyval) : list pyval :=
  match data with
  | PDict d => match dict_get (py "apprenants") d with Some (PList l) => l | _ => [] end
  | _ => []
  end.

(** The cells the filler may write: column 1 of rows 0-8 of table 0, column 1
    of rows 0-1 of table 2, columns 0-2 of rows 1-9 of table 3. *)
Definition fixed_cell (t r c : nat) : bool :=
  match t with
  | 0 => (r <? 9) && (c =? 1)
  | 2 => (r <? 2) && (c =? 1)
  | 3 => (1 <=? r) && (r <=? 9) && (c <? 3)
  | _ => false
  end.

Definition has_cell (D : document) (t r c : nat) : bool :=
  bool_decide (is_Some (cell_at D t r c)).

(** A template conforms when every fixed cell exists in it. *)
Definition conforms (D : document) : bool :=
  forallb (λ r, has_cell D 0 r 1) (seq 0 9)
  && forallb (λ r, has_cell D 2 r 1) (seq 0 2)
  && forallb (λ r, forallb (λ c, has_cell D 3 r c) (seq 0 3)) (seq 1 9).

(** The text a record destines to a cell, if any: the cell-by-cell reading
    of the layout.  [today] is the current date, already formatted. *)
Definition cell_source (data : pyval) (today : pystr) (t r c : nat) : option pystr :=
  match t, r, c with
  | 0, 0, 1 => field data (py "affectation")
  | 0, 1, 1 => field data (py "affectation")
  | 0, 2, 1 => field data (py "semaine")
  | 0, 3, 1 => field data (py "formateur")
  | 0, 4, 1 => field data (py "referent")
  | 0, 5, 1 => field data (py "horaires")
  | 0, 6, 1 => field data (py "numero_action")
  | 0, 7, 1 => Some (default today (field data (py "date_redaction")))
  | 0, 8, 1 => field data (py "observations_groupe")
  | 2, 0, 1 => field data (py "themes_modules")
  | 2, 1, 1 => field data (py "previsions")
  | 3, S i, 0 => if decide (i < 9) then e ← apprenants_of data !! i; field e (py "nom") else None
  | 3, S i, 1 => if decide (i < 9) then e ← apprenants_of data !! i; field e (py "prenom") else None
  | 3, S i, 2 =>
      if decide (i < 9) then e ← apprenants_of data !! i; field e (py "observation") else None
  | _, _, _ => None
  end.

(** The fixed cell of each optional string field other than
    [date_redaction]. *)
Definition field_cells : list (pystr * (nat * nat * nat)) :=
  [(py "affectation", (0, 0, 1)); (py "affectation", (0, 1, 1));
   (py "semaine", (0, 2, 1)); (py "formateur", (0, 3, 1)); (py "referent", (0, 4, 1));
   (py "horaires", (0, 5, 1)); (py "numero_action", (0, 6, 1));
   (py "observations_groupe", (0, 8, 1));
   (py "themes_modules", (2, 0, 1)); (py "previsions", (2, 1, 1))].

(** The same document, built as the succession of cell writes. *)
Definition put (t r c : nat) (o : option pystr) (D : document) : document :=
  match o with
  | Some s => set_cell t r c s D
  | None => D
  end.

Definition put_learner (i : nat) (e : pyval) (D : document) : document :=
  put 3 (i + 1) 2 (field e (py "observation"))
    (put 3 (i + 1) 1 (field e (py "prenom"))
      (put 3 (i + 1) 0 (field e (py "nom")) D)).

Fixpoint put_learners (i : nat) (entries : list pyval) (D : document) : document :=
  match entries with
  | [] => D
  | e :: rest => put_learners (S i) rest (put_learner i e D)
  end.

Definition filled (data : pyval) (today : pystr) (D : document) : document :=
  put_learners 0 (take 9 (apprenants_of data))
    (put 2 1 1 (field data (py "previsions"))
    (put 2 0 1 (field data (py "themes_modules"))
    (put 0 8 1 (field data (py "observations_groupe"))
    (put 0 7 1 (Some (default today (field data (py "date_redaction"))))
    (put 0 6 1 (field data (py "numero_action"))
    (put 0 5 1 (field data (py "horaires"))
    (put 0 4 1 (field data (py "referent"))
    (put 0 3 1 (field data (py "formateur"))
    (put 0 2 1 (field data (py "semaine"))
    (put 0 1 1 (field data (py "affectation"))
    (put 0 0 1 (field data (py "affectation")) D))))))))))).

(** What a write of [o] (or no write, when [o] is [None]) makes of the
    content [cur] of a cell, [None] standing for a cell that does not
    exist. *)
Definition overwrite (o : option pystr) (cur : option pystr) : option pystr :=
  (λ old, default old o) <$> cur.

Definition learner_column (c : nat) : pystr :=
  match c with
  | 0 => py "nom"
  | 1 => py "prenom"
  | _ => py "observation"
  end.

(** The text the entries destine to a cell when the first of them goes to
    row [i + 1] of table 3. *)
Definition learner_source (i : nat) (entries : list pyval) (t r c : nat) : option pystr :=
  if decide (t = 3 ∧ i + 1 ≤ r ∧ c < 3)
  then e ← entries !! (r - (i + 1)); field e (learner_column c)
  else None.

(** The two components of the output file name, as the filler computes
    them from the field values. *)
Definition affectation_component (s : pystr) : pystr :=
  replace (py " ") (py "_") (replace (py "/") (py "-") s).

Definition semaine_component (s : pystr) : pystr :=
  strip (replace (py " ") (py "_") (replace (py "/") (py "-")
    (replace (py " au ") (py "_au_") (replace (py "Du ") (py "") s)))).

(** The output file name as a function of the data alone. *)
Definition output_filename (data : pyval) : result pystr :=
  match py_get data (py "affectation") (PStr (py "FORMATION")) with
  | inl e => inl e
  | inr a =>
      match py_replace a (py "/") (py "-") with
      | inl e => inl e
      | inr a =>
          match py_get data (py "semaine") (PStr (py "")) with
          | inl e => inl e
          | inr s =>
              match py_replace s (py "Du ") (py "") with
              | inl e => inl e
              | inr s =>
                  inr (py "SUIVI_FORMATION_" ++ replace (py " ") (py "_") a ++ py "_"
                       ++ strip (replace (py " ") (py "_") (replace (py "/") (py "-")
                            (replace (py " au ") (py "_au_") s)))
                       ++ py ".docx")
              end
          end
      end
  end.

(** The semaine component as the specification words it: only a leading
    ["Du "] is removed. *)
Definition strip_prefix (p s : pystr) : pystr :=
  if startswith p s then drop (length p) s else s.

Definition semaine_as_specified (s : pystr) : pystr :=
  strip (replace (py " ") (py "_") (replace (py "/") (py "-")
    (replace (py " au ") (py "_au_") (strip_prefix (py "Du ") s)))).

(** The shape [DD/MM/YYYY]. *)
Definition is_digit (c : N) : bool := ((48 <=? c) && (c <=? 57))%N.

Definition is_DD_MM_YYYY (s : pystr) : bool :=
  match s with
  | [d1; d2; s1; m1; m2; s2; y1; y2; y3; y4] =>
      forallb is_digit [d1; d2; m1; m2; y1; y2; y3; y4]
      && (s1 =? 47)%N && (s2 =? 47)%N
  | _ => false
  end.

(** The file name the filler gives the report of a record. *)
Definition record_filename (data : pyval) : pystr :=
  py "SUIVI_FORMATION_"
  ++ affectation_component (default (py "FORMATION") (field data (py "affectation")))
  ++ py "_" ++ semaine_component (default (py "") (field data (py "semaine")))
  ++ py ".docx".

End Layout.
Export Layout.

(** ** Effects *)

Module Effects.

(** Two worlds that differ at most in the objects held in memory. *)
Definition frame (w w' : world) : Prop :=
  w_fs w' = w_fs w ∧ w_clock w' = w_clock w ∧ w_tmpdir w' = w_tmpdir w
  ∧ w_save_error w' = w_save_error w ∧ w_nonstr_text w' = w_nonstr_text w
  ∧ w_trace w' = w_trace w.

(** A computation that touches nothing but objects in memory. *)
Definition stable {A} (m : M A) : Prop :=
  ∀ w r w', m w = (r, w') → frame w w'.

(** The world in which object [doc] holds [D]. *)
Definition load (doc : nat) (D : document) (w : world) : world :=
  with_objs (<[doc := D]> (w_objs w)) w.

(** The world once [Document(path)] has returned an object holding [D]. *)
Definition opened (path : pystr) (D : document) (w : world) : world :=
  with_objs (w_objs w ++ [D]) (log (EvOpen path) w).

(** The world once the filler has returned: the object it opened holds the
    filled document [D], which is also the content of the file [out]. *)
Definition saved (path out : pystr) (D : document) (w : world) : world :=
  with_fs (<[out := DocxFile D]> (w_fs w)) (log (EvSave out) (opened path D w)).

End Effects.
Export Effects.

(** ** Sample data *)

Module Samples.

(** A blank template of the documented shape: tables of 9x2, 1x1, 2x2 and
    10x3 cells, each holding a placeholder text. *)
Definition blank_table (rows cols : nat) : list (list pystr) :=
  replicate rows (replicate cols (py "..."))%string.

Definition blank_template : document :=
  [blank_table 9 2; blank_table 1 1; blank_table 2 2; blank_table 10 3].

Definition template_path : pystr := py "/templates/SUIVI_DE_FORMATION_VIERGE.docx".

(** A world holding that template, on 26 March 2025, where writing never
    fails. *)
Definition sample_world : world :=
  World {[ template_path := DocxFile blank_template ]} [] (Date 2025 3 26) (py "/tmp")
    (λ _, None)
    (λ v, inl (TypeError (py "'" ++ type_name v ++ py "' object is not iterable")))
    [].

Definition learner (nom prenom : string) : pyval :=
  PDict [(py "nom", PStr (py nom)); (py "prenom", PStr (py prenom))].

(** The payload of the docstring of [fill_document], cut down to the fields
    the examples need, with ten learners; the third has no first name. *)
Definition sample_record : pyval :=
  PDict [
    (py "affectation", PStr (py "CAP 2 OLBER"));
    (py "semaine", PStr (py "Du 24/03/2025 au 26/03/2025"));
    (py "formateur", PStr (py "Yves Sournac"));
    (py "apprenants", PList [
       learner "DUPONT" "Jean"; learner "MARTIN" "Sophie";
       PDict [(py "nom", PStr (py "BERNARD")); (py "observation", PStr (py "Absent"))];
       learner "PETIT" "Luc"; learner "ROUX" "Anne"; learner "MOREAU" "Paul";
       learner "SIMON" "Lea"; learner "MICHEL" "Hugo"; learner "GARCIA" "Ines";
       learner "DAVID" "Noe"])
  ].

(** A record whose week mentions ["Du "] after its first word. *)
Definition inner_du_record : pyval :=
  PDict [(py "semaine", PStr (py "Semaine Du 24/03/2025"))].

(** A world in which writing the output file fails for lack of memory. *)
Definition out_of_memory_world : world :=
  World {[ template_path := DocxFile blank_template ]} [] (Date 2025 3 26) (py "/tmp")
    (λ _, Some (Exn (py "MemoryError") (py "")))
    (λ v, inl (TypeError (py "'" ++ type_name v ++ py "' object is not iterable")))
    [].

End Samples.
Export Samples.

(** * Properties *)

(** ** Facts about the string methods *)

Lemma startswith_app (p t : pystr) : startswith p (p ++ t) = true.
Proof.
  induction p as [|a p IH]; [done|].
  simpl. by rewrite N.eqb_refl, IH.
Qed.

Lemma replace_from_skip (old new p t : pystr) :
  replace_from old new (length p) (p ++ t) = replace_from old new 0 t.
Proof.
  induction p as [|a p IH]; [done|]. simpl. exact IH.
Qed.

Section replace_facts.
Context (old new : pystr).
Hypothesis old_nonempty : old ≠ [].

Lemma replace_unfold (s : pystr) : replace old new s = replace_from old new 0 s.
Proof using old_nonempty. unfold replace. by destruct old. Qed.

Lemma replace_nil : replace old new [] = [].
Proof using old_nonempty. by rewrite replace_unfold. Qed.

(** An occurrence at the head is substituted, and the scan resumes after
    it. *)
Lemma replace_match (t : pystr) : replace old new (old ++ t) = new ++ replace old new t.
Proof using old_nonempty.
  rewrite !replace_unfold.
  destruct old as [|a p]; [done|].
  change ((a :: p) ++ t) with (a :: (p ++ t)).
  cbn [replace_from].
  pose proof (startswith_app (a :: p) t) as Hs.
  change ((a :: p) ++ t) with (a :: (p ++ t)) in Hs.
  rewrite Hs. f_equal.
  replace (length (a :: p) - 1) with (length p) by (cbn; lia).
  apply replace_from_skip.
Qed.

(** A character that starts no occurrence is kept. *)
Lemma replace_pass (c : N) (t : pystr) :
  startswith old (c :: t) = false →
  replace old new (c :: t) = c :: replace old new t.
Proof using old_nonempty.
  intros H. rewrite !replace_unfold. cbn [replace_from]. by rewrite H.
Qed.

Lemma replace_absent (s : pystr) : contains old s = false → replace old new s = s.
Proof using old_nonempty.
  induction s as [|c s IH]; intros H.
  - apply replace_nil.
  - cbn [contains] in H. apply orb_false_iff in H as [H1 H2].
    rewrite replace_pass by done. by rewrite IH.
Qed.
End replace_facts.

(** Replacing one character by another is a character-wise map. *)
Lemma replace_char (a b : N) (s : pystr) :
  replace [a] [b] s = (λ c, if (a =? c)%N then b else c) <$> s.
Proof.
  induction s as [|c s IH]; [done|].
  destruct (a =? c)%N eqn:E.
  - apply N.eqb_eq in E as ->.
    change (c :: s) with ([c] ++ s) at 1.
    rewrite replace_match by done.
    rewrite IH. cbn. by rewrite N.eqb_refl.
  - rewrite replace_pass; [|done|by cbn; rewrite E].
    rewrite IH. cbn. by rewrite E.
Qed.

Lemma replace_char_gone (a b : N) (s : pystr) : a ≠ b → a ∉ replace [a] [b] s.
Proof.
  intros Hab. rewrite replace_char. intros Hin.
  apply list_elem_of_fmap in Hin as (c & Hc & _).
  destruct (a =? c)%N eqn:E; [done|].
  apply N.eqb_neq in E. done.
Qed.

Lemma replace_char_keeps (a b x : N) (s : pystr) :
  x ≠ b → x ∉ s → x ∉ replace [a] [b] s.
Proof.
  intros Hxb Hx. rewrite replace_char. intros Hin.
  apply list_elem_of_fmap in Hin as (c & Hc & Hcs).
  destruct (a =? c)%N; subst; done.
Qed.

Lemma lstrip_suffix (s : pystr) : lstrip s `suffix_of` s.
Proof.
  induction s as [|c s IH]; [done|]. cbn.
  destruct (isspace c); [by apply suffix_cons_r|done].
Qed.

Lemma strip_sublist (x : N) (s : pystr) : x ∈ strip s → x ∈ s.
Proof.
  unfold strip, rstrip. intros H.
  rewrite elem_of_reverse in H.
  destruct (lstrip_suffix (reverse (lstrip s))) as [k Hk].
  assert (x ∈ reverse (lstrip s)) as H1.
  { rewrite Hk. apply elem_of_app. by right. }
  rewrite elem_of_reverse in H1.
  destruct (lstrip_suffix s) as [k' Hk'].
  rewrite Hk'. apply elem_of_app. by right.
Qed.

(** ** Facts about cells *)

Lemma cell_at_set_cell (t r c : nat) (s : pystr) (D : document) (t' r' c' : nat) :
  cell_at (set_cell t r c s D) t' r' c' =
    if decide ((t, r, c) = (t', r', c'))
    then (λ _, s) <$> cell_at D t' r' c'
    else cell_at D t' r' c'.
Proof.
  unfold cell_at, set_cell.
  destruct (decide (t = t')) as [->|Ht].
  2: { rewrite list_lookup_alter_ne by done. case_decide; [congruence|done]. }
  rewrite list_lookup_alter_eq.
  destruct (D !! t') as [T|]; cbn; [|by case_decide].
  destruct (decide (r = r')) as [->|Hr].
  2: { rewrite list_lookup_alter_ne by done. case_decide; [congruence|done]. }
  rewrite list_lookup_alter_eq.
  destruct (T !! r') as [R|]; cbn; [|by case_decide].
  destruct (decide (c = c')) as [->|Hc].
  2: { rewrite list_lookup_insert_ne by done. case_decide; [congruence|done]. }
  rewrite decide_True by done.
  destruct (R !! c') as [x|] eqn:E; cbn.
  - apply list_lookup_insert_eq. by eapply lookup_lt_Some.
  - apply lookup_ge_None. rewrite length_insert. by apply lookup_ge_None.
Qed.

Lemma tables_set_cell (t r c : nat) (s : pystr) (D : document) (t' : nat) :
  t ≠ t' → set_cell t r c s D !! t' = D !! t'.
Proof. intros. unfold set_cell. by rewrite list_lookup_alter_ne. Qed.

Lemma length_set_cell (t r c : nat) (s : pystr) (D : document) :
  length (set_cell t r c s D) = length D.
Proof. apply length_alter. Qed.

(** ** Running computations *)

Lemma bind_inr {A B} (m : M A) (f : A → M B) (w : world) (a : A) (w1 : world) :
  m w = (inr a, w1) → (m ≫= f) w = f a w1.
Proof. intros H. unfold mbind, M_bind. by rewrite H. Qed.

Lemma bind_inl {A B} (m : M A) (f : A → M B) (w : world) (e : exn) (w1 : world) :
  m w = (inl e, w1) → (m ≫= f) w = (inl e, w1).
Proof. intros H. unfold mbind, M_bind. by rewrite H. Qed.

Lemma bind_inv {A B} (m : M A) (f : A → M B) (w : world) (r : result B) (w' : world) :
  (m ≫= f) w = (r, w') →
  (∃ e, m w = (inl e, w') ∧ r = inl e)
  ∨ (∃ a w1, m w = (inr a, w1) ∧ f a w1 = (r, w')).
Proof.
  unfold mbind, M_bind. destruct (m w) as [[e|a] w1]; intros H.
  - left. exists e. by inversion H.
  - right. by exists a, w1.
Qed.

Lemma frame_refl (w : world) : frame w w.
Proof. by repeat split. Qed.

Lemma frame_trans (w1 w2 w3 : world) : frame w1 w2 → frame w2 w3 → frame w1 w3.
Proof.
  unfold frame. intros (?&?&?&?&?&?) (?&?&?&?&?&?).
  repeat split; congruence.
Qed.

Lemma frame_with_objs (o : list document) (w : world) : frame w (with_objs o w).
Proof. by repeat split. Qed.

(** *** Computations that only touch objects in memory *)

Create HintDb stable discriminated.

Lemma stable_ret {A} (a : A) : stable (mret a : M A).
Proof. intros w r w' [= <- <-]. apply frame_refl. Qed.

Lemma stable_raise {A} (e : exn) : stable (raise e : M A).
Proof. intros w r w' [= <- <-]. apply frame_refl. Qed.

Lemma stable_lift {A} (x : result A) : stable (lift x).
Proof. intros w r w' [= <- <-]. apply frame_refl. Qed.

Lemma stable_bind {A B} (m : M A) (f : A → M B) :
  stable m → (∀ a, stable (f a)) → stable (m ≫= f).
Proof.
  intros Hm Hf w r w' H.
  apply bind_inv in H as [(e & H & _)|(a & w1 & H1 & H2)].
  - by eapply Hm.
  - eapply frame_trans; [by eapply Hm|by eapply Hf].
Qed.

Lemma stable_if {A} (b : bool) (m1 m2 : M A) :
  stable m1 → stable m2 → stable (if b then m1 else m2).
Proof. by destruct b. Qed.

Lemma stable_deref (doc : nat) : stable (deref doc).
Proof.
  intros w r w'. unfold deref.
  destruct (w_objs w !! doc); intros [= <- <-]; apply frame_refl.
Qed.

Lemma stable_store (doc : nat) (D : document) : stable (store doc D).
Proof. intros w r w' [= <- <-]. apply frame_with_objs. Qed.

Lemma stable_text_of (v : pyval) : stable (text_of v).
Proof.
  intros w r w'. unfold text_of.
  destruct v; intros [= <- <-]; apply frame_refl.
Qed.

Lemma stable_now : stable now.
Proof. intros w r w' [= <- <-]. apply frame_refl. Qed.

Lemma stable_gettempdir : stable gettempdir.
Proof. intros w r w' [= <- <-]. apply frame_refl. Qed.

#[local] Hint Resolve stable_ret stable_raise stable_lift stable_deref stable_store
  stable_text_of stable_now stable_gettempdir : stable.
#[local] Hint Extern 2 (stable (_ ≫= _)) => apply stable_bind; [|intros] : stable.
#[local] Hint Extern 2 (stable (if _ then _ else _)) => apply stable_if : stable.
#[local] Hint Extern 2 (stable (match ?x with _ => _ end)) => destruct x : stable.

Lemma stable_tables (doc i : nat) : stable (tables doc i).
Proof. unfold tables. auto with stable. Qed.

Lemma stable_set_text (tbl : nat * nat) (r c : nat) (v : pyval) :
  stable (set_text tbl r c v).
Proof. unfold set_text. auto 10 with stable. Qed.

Lemma stable_has (k : pystr) (data : pyval) : stable (has k data).
Proof. apply stable_lift. Qed.

Lemma stable_item (data : pyval) (k : pystr) : stable (item data k).
Proof. apply stable_lift. Qed.

#[local] Hint Resolve stable_tables stable_set_text stable_has stable_item : stable.

Lemma stable_when_in (k : pystr) (data : pyval) (body : M unit) :
  stable body → stable (when_in k data body).
Proof. intros. unfold when_in. auto with stable. Qed.

#[local] Hint Resolve stable_when_in : stable.

Lemma stable_for_enumerate (items : list pyval) (body : nat → pyval → M unit) (i : nat) :
  (∀ i x, stable (body i x)) → stable (for_enumerate i items body).
Proof.
  intros Hbody. revert i.
  induction items as [|x items IH]; intros i; cbn [for_enumerate]; auto with stable.
Qed.

#[local] Hint Resolve stable_for_enumerate : stable.

(** ** The filler on a conforming template *)

Lemma has_cell_put (t r c : nat) (o : option pystr) (D : document) (t' r' c' : nat) :
  has_cell (put t r c o D) t' r' c' = has_cell D t' r' c'.
Proof.
  destruct o as [s|]; [|done]. unfold has_cell, put.
  rewrite cell_at_set_cell. case_decide; [|done].
  apply bool_decide_ext. by rewrite fmap_is_Some.
Qed.

Lemma has_cell_put_learner (i : nat) (e : pyval) (D : document) (t r c : nat) :
  has_cell (put_learner i e D) t r c = has_cell D t r c.
Proof. unfold put_learner. by rewrite !has_cell_put. Qed.

Lemma has_cell_put_learners (entries : list pyval) (i : nat) (D : document) (t r c : nat) :
  has_cell (put_learners i entries D) t r c = has_cell D t r c.
Proof.
  revert i D. induction entries as [|e entries IH]; intros i D; [done|].
  cbn [put_learners]. by rewrite IH, has_cell_put_learner.
Qed.

Lemma has_cell_table (D : document) (t r c : nat) :
  has_cell D t r c = true → is_Some (D !! t).
Proof.
  unfold has_cell, cell_at. intros H%bool_decide_eq_true.
  destruct (D !! t); [by eexists|]. by destruct H.
Qed.

Lemma load_load (doc : nat) (D1 D2 : document) (w : world) :
  load doc D2 (load doc D1 w) = load doc D2 w.
Proof. unfold load, with_objs. cbn. by rewrite list_insert_insert_eq. Qed.

Lemma load_id (doc : nat) (D : document) (w : world) :
  w_objs w !! doc = Some D → load doc D w = w.
Proof. intros H. destruct w. unfold load, with_objs. cbn in *. by rewrite list_insert_id. Qed.

Section run.
Context (w0 : world) (doc : nat).
Hypothesis doc_live : doc < length (w_objs w0).

Lemma objs_load (D : document) : w_objs (load doc D w0) !! doc = Some D.
Proof using doc_live. cbn. by apply list_lookup_insert_eq. Qed.

Lemma run_deref (D : document) : deref doc (load doc D w0) = (inr D, load doc D w0).
Proof using doc_live. unfold deref. by rewrite objs_load. Qed.

Lemma run_store (D D' : document) :
  store doc D' (load doc D w0) = (inr (), load doc D' w0).
Proof using Type. unfold store. fold (load doc D' (load doc D w0)). by rewrite load_load. Qed.

Lemma run_tables (D : document) (i : nat) :
  is_Some (D !! i) →
  tables doc i (load doc D w0) = (inr (doc, i), load doc D w0).
Proof using doc_live.
  intros [T HT]. unfold tables.
  rewrite (bind_inr _ _ _ _ _ (run_deref D)). by rewrite HT.
Qed.

Lemma run_set_text (D : document) (t r c : nat) (s : pystr) :
  has_cell D t r c = true →
  set_text (doc, t) r c (PStr s) (load doc D w0)
  = (inr (), load doc (set_cell t r c s D) w0).
Proof using doc_live.
  intros H%bool_decide_eq_true. unfold set_text. cbn [fst snd].
  rewrite (bind_inr _ _ _ _ _ (run_deref D)).
  unfold cell_at in H.
  destruct (D !! t) as [T|]; cbn in *; [|by destruct H].
  destruct (T !! r) as [R|]; cbn in *; [|by destruct H].
  destruct (R !! c) as [x|]; cbn in *; [|by destruct H].
  apply run_store.
Qed.

Lemma run_has (k : pystr) (d : dict) (w : world) :
  has k (PDict d) w = (inr (bool_decide (is_Some (dict_get k d))), w).
Proof using Type. done. Qed.

Lemma run_item (k : pystr) (d : dict) (v : pyval) (w : world) :
  dict_get k d = Some v → item (PDict d) k w = (inr v, w).
Proof using Type. intros H. unfold item, lift. cbn. by rewrite H. Qed.

(** The value a valid record holds for a field is a string, and [field]
    reads it. *)
Lemma str_or_absent_inv (d : dict) (k : pystr) :
  str_or_absent d k = true →
  (dict_get k d = None ∧ field (PDict d) k = None)
  ∨ (∃ s, dict_get k d = Some (PStr s) ∧ field (PDict d) k = Some s).
Proof using Type.
  unfold str_or_absent, field.
  destruct (dict_get k d) as [[]|]; try done; eauto.
Qed.

(** [if k in data: tbl.rows[r].cells[c].text = data[k]] on a record. *)
Lemma run_write_field (d : dict) (k : pystr) (D : document) (t r c : nat) :
  str_or_absent d k = true →
  has_cell D t r c = true →
  when_in k (PDict d) (v ← item (PDict d) k; set_text (doc, t) r c v) (load doc D w0)
  = (inr (), load doc (put t r c (field (PDict d) k) D) w0).
Proof using doc_live.
  intros Hk Hc. unfold when_in.
  rewrite (bind_inr _ _ _ _ _ (run_has _ _ _)).
  apply str_or_absent_inv in Hk as [[E ->]|(s & E & ->)]; rewrite E.
  - done.
  - rewrite bool_decide_eq_true_2 by eauto.
    rewrite (bind_inr _ _ _ _ _ (run_item _ _ _ _ E)).
    by apply run_set_text.
Qed.

Lemma run_write_affectation (d : dict) (D : document) :
  str_or_absent d (py "affectation") = true →
  has_cell D 0 0 1 = true →
  has_cell D 0 1 1 = true →
  when_in (py "affectation") (PDict d)
    (v ← item (PDict d) (py "affectation"); set_text (doc, 0) 0 1 v;;
     v ← item (PDict d) (py "affectation"); set_text (doc, 0) 1 1 v) (load doc D w0)
  = (inr (), load doc (put 0 1 1 (field (PDict d) (py "affectation"))
                        (put 0 0 1 (field (PDict d) (py "affectation")) D)) w0).
Proof using doc_live.
  intros Hk H0 H1. unfold when_in.
  rewrite (bind_inr _ _ _ _ _ (run_has _ _ _)).
  apply str_or_absent_inv in Hk as [[E ->]|(s & E & ->)]; rewrite E.
  - done.
  - rewrite bool_decide_eq_true_2 by eauto.
    rewrite (bind_inr _ _ _ _ _ (run_item _ _ _ _ E)).
    rewrite (bind_inr _ _ _ _ _ (run_set_text _ _ _ _ _ H0)).
    rewrite (bind_inr _ _ _ _ _ (run_item _ _ _ _ E)).
    apply run_set_text.
    change (set_cell 0 0 1 s D) with (put 0 0 1 (Some s) D).
    by rewrite has_cell_put.
Qed.

Lemma run_write_date (d : dict) (D : document) :
  str_or_absent d (py "date_redaction") = true →
  has_cell D 0 7 1 = true →
  (if bool_decide (is_Some (dict_get (py "date_redaction") d))
   then v ← item (PDict d) (py "date_redaction"); set_text (doc, 0) 7 1 v
   else d ← now; set_text (doc, 0) 7 1 (PStr (strftime_dmY d))) (load doc D w0)
  = (inr (), load doc (put 0 7 1 (Some (default (strftime_dmY (w_clock w0))
                                         (field (PDict d) (py "date_redaction")))) D) w0).
Proof using doc_live.
  intros Hk Hc.
  apply str_or_absent_inv in Hk as [[E ->]|(s & E & ->)]; rewrite E.
  - rewrite bool_decide_eq_false_2 by (by intros [? ?]).
    erewrite bind_inr by reflexivity.
    by apply run_set_text.
  - rewrite bool_decide_eq_true_2 by eauto.
    rewrite (bind_inr _ _ _ _ _ (run_item _ _ _ _ E)).
    by apply run_set_text.
Qed.

Lemma run_learner (e : pyval) (i : nat) (D : document) :
  valid_learner e = true →
  (∀ c, c < 3 → has_cell D 3 (i + 1) c = true) →
  (when_in (py "nom") e
     (v ← item e (py "nom"); set_text (doc, 3) (i + 1) 0 v);;
   when_in (py "prenom") e
     (v ← item e (py "prenom"); set_text (doc, 3) (i + 1) 1 v);;
   when_in (py "observation") e
     (v ← item e (py "observation"); set_text (doc, 3) (i + 1) 2 v)) (load doc D w0)
  = (inr (), load doc (put_learner i e D) w0).
Proof using doc_live.
  intros He Hc. destruct e as [| | | | | |d]; try done.
  unfold valid_learner, learner_fields in He. cbn [forallb] in He.
apply andb_prop in He as [Hn He]. apply andb_prop in He as [Hp He].
apply andb_prop in He as [Ho _].
  rewrite (bind_inr _ _ _ _ _ (run_write_field d _ D 3 (i + 1) 0 Hn (Hc 0 ltac:(lia)))).
  erewrite bind_inr; last first.
  { apply run_write_field; [done|]. rewrite has_cell_put. apply Hc. lia. }
  apply run_write_field; [done|]. rewrite !has_cell_put. apply Hc. lia.
Qed.

Lemma run_learners (entries : list pyval) (i : nat) (D : document) :
  forallb valid_learner entries = true →
  (∀ j c, i ≤ j < i + length entries → c < 3 → has_cell D 3 (j + 1) c = true) →
  for_enumerate i entries (λ i apprenant,
    let row_index := i + 1 in
    when_in (py "nom") apprenant
      (v ← item apprenant (py "nom"); set_text (doc, 3) row_index 0 v);;
    when_in (py "prenom") apprenant
      (v ← item apprenant (py "prenom"); set_text (doc, 3) row_index 1 v);;
    when_in (py "observation") apprenant
      (v ← item apprenant (py "observation"); set_text (doc, 3) row_index 2 v))
    (load doc D w0)
  = (inr (), load doc (put_learners i entries D) w0).
Proof using doc_live.
  revert i D. induction entries as [|e entries IH]; intros i D Hv Hc; [done|].
  cbn in Hv. apply andb_true_iff in Hv as [He Hv].
  cbn [for_enumerate put_learners].
  erewrite bind_inr; last first.
  { cbv zeta. apply run_learner; [done|]. intros c Hlt. apply Hc; [cbn; lia|done]. }
  apply IH; [done|]. intros j c Hj Hlt.
  rewrite has_cell_put_learner. apply Hc; [cbn; lia|done].
Qed.
End run.

Lemma conforms_table0 (D : document) (r : nat) :
  conforms D = true → r < 9 → has_cell D 0 r 1 = true.
Proof.
  unfold conforms. rewrite !andb_true_iff. intros [[H _] _] Hr.
  rewrite forallb_forall in H. apply H, in_seq. lia.
Qed.

Lemma conforms_table2 (D : document) (r : nat) :
  conforms D = true → r < 2 → has_cell D 2 r 1 = true.
Proof.
  unfold conforms. rewrite !andb_true_iff. intros [[_ H] _] Hr.
  rewrite forallb_forall in H. apply H, in_seq. lia.
Qed.

Lemma conforms_table3 (D : document) (r c : nat) :
  conforms D = true → 1 ≤ r ≤ 9 → c < 3 → has_cell D 3 r c = true.
Proof.
  unfold conforms. rewrite !andb_true_iff. intros [_ H] Hr Hc.
  rewrite forallb_forall in H. specialize (H r). rewrite in_seq in H.
  specialize (H ltac:(lia)). rewrite forallb_forall in H. apply H, in_seq. lia.
Qed.

Lemma valid_record_inv (data : pyval) :
  valid_record data = true →
  ∃ d, data = PDict d
       ∧ (∀ k, k ∈ string_fields → str_or_absent d k = true)
       ∧ forallb valid_learner (apprenants_of data) = true
       ∧ (dict_get (py "apprenants") d = None
          ∨ dict_get (py "apprenants") d = Some (PList (apprenants_of data))).
Proof.
  destruct data as [| | | | | |d]; try done. cbn [valid_record].
  rewrite andb_true_iff, forallb_forall. intros [Hf Ha].
  exists d. split; [done|]. split.
  { intros k Hk. by apply Hf, list_elem_of_In. }
  unfold apprenants_of.
  destruct (dict_get (py "apprenants") d) as [[]|]; try done; eauto.
Qed.

Lemma forallb_take {A} (f : A → bool) (n : nat) (l : list A) :
  forallb f l = true → forallb f (take n l) = true.
Proof.
  revert n. induction l as [|x l IH]; intros [|n]; try done.
  cbn. rewrite !andb_true_iff. intros [? ?]. auto.
Qed.

Section run_record.
Context (w0 : world) (doc : nat) (d : dict).
Hypothesis doc_live : doc < length (w_objs w0).

Lemma run_write_learners (D : document) :
  forallb valid_learner (apprenants_of (PDict d)) = true →
  (dict_get (py "apprenants") d = None
   ∨ dict_get (py "apprenants") d = Some (PList (apprenants_of (PDict d)))) →
  (∀ r c, 1 ≤ r ≤ 9 → c < 3 → has_cell D 3 r c = true) →
  when_in (py "apprenants") (PDict d)
    (apprenants ← item (PDict d) (py "apprenants");
     first9 ← lift (py_slice_to 9 apprenants);
     items ← lift (py_iter first9);
     for_enumerate 0 items (λ i apprenant,
       let row_index := i + 1 in
       when_in (py "nom") apprenant
         (v ← item apprenant (py "nom"); set_text (doc, 3) row_index 0 v);;
       when_in (py "prenom") apprenant
         (v ← item apprenant (py "prenom"); set_text (doc, 3) row_index 1 v);;
       when_in (py "observation") apprenant
         (v ← item apprenant (py "observation"); set_text (doc, 3) row_index 2 v)))
    (load doc D w0)
  = (inr (), load doc (put_learners 0 (take 9 (apprenants_of (PDict d))) D) w0).
Proof using doc_live.
  intros Hv Ha Hc. unfold when_in.
  rewrite (bind_inr _ _ _ _ _ (run_has _ _ _)).
  destruct Ha as [E|E].
  - rewrite E. rewrite bool_decide_eq_false_2 by (by intros [? ?]).
    unfold apprenants_of. by rewrite E.
  - assert (bool_decide (is_Some (dict_get (py "apprenants") d)) = true) as ->.
    { apply bool_decide_eq_true_2. rewrite E. eauto. }
    rewrite (bind_inr _ _ _ _ _ (run_item _ _ _ _ E)).
    set (l := apprenants_of (PDict d)) in *.
    erewrite bind_inr by reflexivity.
    erewrite bind_inr by reflexivity.
    apply run_learners; [done| |].
    + by apply forallb_take.
    + intros j c Hj Hlt. apply Hc; [|done].
      rewrite length_take in Hj. lia.
Qed.
End run_record.

Lemma opened_load (path : pystr) (D D' : document) (w : world) :
  load (length (w_objs w)) D' (opened path D w) = opened path D' w.
Proof.
  unfold load, opened, with_objs, log. cbn. f_equal.
  rewrite insert_app_r_alt by done. by rewrite Nat.sub_diag.
Qed.

Lemma output_filename_record (data : pyval) :
  valid_record data = true →
  output_filename data = inr (record_filename data).
Proof.
  intros (d & -> & Hf & _)%valid_record_inv.
  unfold output_filename, record_filename, field. cbn [py_get].
  pose proof (Hf (py "affectation") ltac:(by apply (bool_decide_unpack _); vm_compute)) as Ha.
  pose proof (Hf (py "semaine") ltac:(by apply (bool_decide_unpack _); vm_compute)) as Hs.
  apply str_or_absent_inv in Ha as [[-> _]|(a & -> & _)];
    apply str_or_absent_inv in Hs as [[-> _]|(s & -> & _)]; done.
Qed.

(** On a conforming template, with a valid record and no failure to write
    the output file, the filler returns the output path and file name, and
    leaves the filled document in memory and on disk. *)
Lemma run_fill (w : world) (data : pyval) (path : pystr) (tpl : document) :
  w_fs w !! path = Some (DocxFile tpl) →
  conforms tpl = true →
  valid_record data = true →
  w_save_error w (path_join (w_tmpdir w) (record_filename data)) = None →
  fill_suivi_formation data path w
  = (inr (path_join (w_tmpdir w) (record_filename data), record_filename data),
     saved path (path_join (w_tmpdir w) (record_filename data))
       (filled data (strftime_dmY (w_clock w)) tpl) w).
Proof.
  intros Hopen Hconf Hvalid Hsave.
  pose proof (output_filename_record _ Hvalid) as Hname.
  apply valid_record_inv in Hvalid as (d & -> & Hf & Hl & Ha).
  assert (∀ k, bool_decide (k ∈ string_fields) = true → str_or_absent d k = true) as Hk.
  { intros k Hk. apply Hf. by apply bool_decide_eq_true_1 in Hk. }
  unfold fill_suivi_formation.
  erewrite bind_inr; last first.
  { unfold Document. rewrite Hopen. reflexivity. }
  fold (opened path tpl w).
  set (doc := length (w_objs w)).
  set (w1 := opened path tpl w).
  assert (doc < length (w_objs w1)) as Hlive.
  { unfold w1, opened, doc. cbn. rewrite length_app. cbn. lia. }
  rewrite <- (load_id doc tpl w1) at 1; last first.
  { unfold w1, opened, doc. cbn. by rewrite lookup_app_r, Nat.sub_diag. }
  pose proof (conforms_table0 tpl) as H0.
  pose proof (conforms_table2 tpl) as H2.
  pose proof (conforms_table3 tpl) as H3.
  erewrite bind_inr; last first.
  { apply run_tables; [done|]. apply (has_cell_table _ 0 0 1). apply H0; [done|lia]. }
  erewrite bind_inr; last first.
  { apply run_write_affectation; [done|by apply Hk|apply H0; [done|lia]..]. }
  do 5 (erewrite bind_inr; last first;
    [ apply run_write_field; [done|by apply Hk|rewrite !has_cell_put; apply H0; [done|lia]] |]).
  rewrite (bind_inr _ _ _ _ _ (run_has _ _ _)).
  erewrite bind_inr; last first.
  { apply run_write_date; [done|by apply Hk|rewrite !has_cell_put; apply H0; [done|lia]]. }
  erewrite bind_inr; last first.
  { apply run_write_field; [done|by apply Hk|rewrite !has_cell_put; apply H0; [done|lia]]. }
  erewrite bind_inr; last first.
  { apply run_tables; [done|]. apply (has_cell_table _ 2 0 1).
    rewrite !has_cell_put. apply H2; [done|lia]. }
  do 2 (erewrite bind_inr; last first;
    [ apply run_write_field; [done|by apply Hk|rewrite !has_cell_put; apply H2; [done|lia]] |]).
  erewrite bind_inr; last first.
  { apply run_tables; [done|]. apply (has_cell_table _ 3 1 0).
    rewrite !has_cell_put. apply H3; [done|lia..]. }
  erewrite bind_inr; last first.
  { apply run_write_learners; [done..|].
    intros r c Hr Hc. rewrite !has_cell_put. by apply H3. }
  replace (w_clock w1) with (w_clock w) by done.
  fold (filled (PDict d) (strftime_dmY (w_clock w)) tpl).
  set (D' := filled (PDict d) (strftime_dmY (w_clock w)) tpl).
  unfold output_filename in Hname.
  destruct (py_get (PDict d) (py "affectation") (PStr (py "FORMATION"))) as [|a0] eqn:E1;
    [done|].
  destruct (py_replace a0 (py "/") (py "-")) as [|a1] eqn:E2; [done|].
  destruct (py_get (PDict d) (py "semaine") (PStr (py ""))) as [|s0] eqn:E3; [done|].
  destruct (py_replace s0 (py "Du ") (py "")) as [|s1] eqn:E4; [done|].
  apply (inj inr) in Hname.
  do 4 (erewrite bind_inr by (unfold lift; rewrite ?E2, ?E4; reflexivity)).
  cbv zeta. rewrite Hname.
  erewrite bind_inr by reflexivity.
  replace (w_tmpdir (load doc D' w1)) with (w_tmpdir w) by done.
  set (out := path_join (w_tmpdir w) (record_filename (PDict d))) in *.
  erewrite bind_inr; last first.
  { unfold save. rewrite (bind_inr _ _ _ _ _ (run_deref w1 doc Hlive D')).
    unfold write_file.
    replace (w_save_error (load doc D' w1) out) with (w_save_error w out) by done.
    rewrite Hsave. reflexivity. }
  unfold w1, doc. rewrite opened_load. reflexivity.
Qed.

(** ** The filled document, cell by cell *)

Lemma overwrite_None (cur : option pystr) : overwrite None cur = cur.
Proof. by destruct cur. Qed.

Lemma overwrite_overwrite (o1 o2 : option pystr) (cur : option pystr) :
  overwrite o2 (overwrite o1 cur)
  = overwrite (match o2 with Some s => Some s | None => o1 end) cur.
Proof. by destruct cur, o1, o2. Qed.

Lemma cell_at_put (t r c : nat) (o : option pystr) (D : document) (t' r' c' : nat) :
  cell_at (put t r c o D) t' r' c' =
    if decide ((t, r, c) = (t', r', c'))
    then overwrite o (cell_at D t' r' c')
    else cell_at D t' r' c'.
Proof.
  destruct o as [s|]; cbn [put].
  - rewrite cell_at_set_cell. case_decide; [|done].
    unfold overwrite. by destruct (cell_at D t' r' c').
  - rewrite overwrite_None. by case_decide.
Qed.

Lemma cell_at_put_learner (i : nat) (e : pyval) (D : document) (t r c : nat) :
  cell_at (put_learner i e D) t r c
  = overwrite (if decide (t = 3 ∧ r = i + 1 ∧ c < 3)
               then field e (learner_column c) else None)
      (cell_at D t r c).
Proof.
  unfold put_learner. rewrite !cell_at_put.
  repeat case_decide; simplify_eq; cbn [learner_column];
    rewrite ?overwrite_None; try done; try lia.
  all: destruct c as [|[|[|c]]]; try lia; exfalso; intuition congruence.
Qed.

Lemma cell_at_put_learners (entries : list pyval) (i : nat) (D : document) (t r c : nat) :
  cell_at (put_learners i entries D) t r c
  = overwrite (learner_source i entries t r c) (cell_at D t r c).
Proof.
  revert i D. induction entries as [|e entries IH]; intros i D.
  - cbn [put_learners]. unfold learner_source.
    case_decide; by rewrite ?lookup_nil, overwrite_None.
  - cbn [put_learners]. rewrite IH, cell_at_put_learner, overwrite_overwrite.
    f_equal. unfold learner_source.
    destruct (decide (t = 3 ∧ r = i + 1 ∧ c < 3)) as [(-> & -> & Hc)|Hne].
    + rewrite (decide_False (P := 3 = 3 ∧ S i + 1 ≤ i + 1 ∧ c < 3)) by lia.
      rewrite decide_True by lia. by rewrite Nat.sub_diag.
    + destruct (decide (t = 3 ∧ S i + 1 ≤ r ∧ c < 3)) as [(-> & Hr & Hc)|Hne'].
      * rewrite decide_True by lia.
        replace (r - (i + 1)) with (S (r - (S i + 1))) by lia. cbn [lookup list_lookup].
        by destruct (entries !! (r - (S i + 1)) ≫= _).
      * rewrite decide_False by lia. done.
Qed.


Lemma cell_at_put_eqb (t r c : nat) (o : option pystr) (D : document) (t' r' c' : nat) :
  cell_at (put t r c o D) t' r' c' =
    if (t =? t') && (r =? r') && (c =? c')
    then overwrite o (cell_at D t' r' c')
    else cell_at D t' r' c'.
Proof.
  rewrite cell_at_put.
  destruct (Nat.eqb_spec t t'), (Nat.eqb_spec r r'), (Nat.eqb_spec c c');
    cbn [andb]; case_decide; congruence.
Qed.

(** Every cell of the filled document holds the text the record destines to
    it, or else what the template held. *)
Lemma cell_at_filled (data : pyval) (today : pystr) (D : document) (t r c : nat) :
  cell_at (filled data today D) t r c
  = overwrite (cell_source data today t r c) (cell_at D t r c).
Proof.
  unfold filled. rewrite cell_at_put_learners, !cell_at_put_eqb.
  unfold learner_source.
  destruct t as [|[|[|[|t]]]].
  - rewrite (decide_False (P := 0 = 3 ∧ _)) by lia.
    do 9 (try destruct r as [|r]); destruct c as [|[|c]];
      cbn [Nat.eqb andb cell_source]; by rewrite ?overwrite_None.
  - rewrite (decide_False (P := 1 = 3 ∧ _)) by lia.
    cbn [Nat.eqb andb cell_source]. by rewrite !overwrite_None.
  - rewrite (decide_False (P := 2 = 3 ∧ _)) by lia.
    do 2 (try destruct r as [|r]); destruct c as [|[|c]];
      cbn [Nat.eqb andb cell_source]; by rewrite ?overwrite_None.
  - do 10 (try destruct r as [|r]); destruct c as [|[|[|c]]];
      cbn [Nat.eqb andb cell_source learner_column Nat.sub Nat.add];
      repeat case_decide; try lia;
      rewrite ?overwrite_None, ?lookup_take_lt, ?lookup_take_ge by lia;
      try reflexivity; apply overwrite_None.
  - rewrite (decide_False (P := S (S (S (S t))) = 3 ∧ _)) by lia.
    cbn [Nat.eqb andb cell_source]. by rewrite !overwrite_None.
Qed.

(** ** The filler on arbitrary data *)

Lemma stable_bind_inv {A B} (m : M A) (f : A → M B) (w : world) (r : result B) (w' : world) :
  stable m →
  (m ≫= f) w = (r, w') →
  ∃ w1, frame w w1 ∧ ((∃ e, r = inl e ∧ w' = w1) ∨ (∃ a, f a w1 = (r, w'))).
Proof.
  intros Hm H. apply bind_inv in H as [(e & H & ->)|(a & w1 & H1 & H2)].
  - exists w'. split; [by eapply Hm|]. left. by exists e.
  - exists w1. split; [by eapply Hm|]. right. by exists a.
Qed.

Lemma lift_bind_inv {A B} (x : result A) (f : A → M B) (w : world) (r : result B) (w' : world) :
  (lift x ≫= f) w = (r, w') →
  (∃ e, x = inl e ∧ r = inl e ∧ w' = w) ∨ (∃ a, x = inr a ∧ f a w = (r, w')).
Proof.
  unfold mbind, M_bind, lift. destruct x as [e|a]; intros H.
  - left. exists e. by inversion H.
  - right. by exists a.
Qed.

(** What a call of the filler does to the world, whatever the data: it opens
    the template once; it returns only after it has written the document to
    the path it returns, under the name that the data determine; it fails
    without touching any file. *)
Lemma fill_outcome (data : pyval) (path : pystr) (w : world) (r : result (pystr * pystr))
    (w' : world) :
  fill_suivi_formation data path w = (r, w') →
  w_clock w' = w_clock w ∧ w_tmpdir w' = w_tmpdir w
  ∧ w_save_error w' = w_save_error w ∧ w_nonstr_text w' = w_nonstr_text w
  ∧ match r with
    | inr (out, fname) =>
        output_filename data = inr fname
        ∧ out = path_join (w_tmpdir w) fname
        ∧ w_save_error w out = None
        ∧ (∃ D, w_fs w' = <[out := DocxFile D]> (w_fs w))
        ∧ w_trace w' = w_trace w ++ [EvOpen path; EvSave out]
    | inl e =>
        w_fs w' = w_fs w
        ∧ (w_trace w' = w_trace w ++ [EvOpen path]
           ∨ ∃ out, w_save_error w out = Some e
                    ∧ w_trace w' = w_trace w ++ [EvOpen path; EvSave out])
    end.
Proof.
  intros H. unfold fill_suivi_formation in H.
  apply bind_inv in H as [(e & H & ->)|(doc & w1 & Hdoc & H)].
  { unfold Document in H.
    destruct (w_fs w !! path) as [[D|e']|]; inversion H; subst; cbn; auto 10. }
  assert (w_fs w1 = w_fs w ∧ w_clock w1 = w_clock w ∧ w_tmpdir w1 = w_tmpdir w
          ∧ w_save_error w1 = w_save_error w ∧ w_nonstr_text w1 = w_nonstr_text w
          ∧ w_trace w1 = w_trace w ++ [EvOpen path]) as Hw1.
  { unfold Document in Hdoc.
    destruct (w_fs w !! path) as [[D|e']|]; inversion Hdoc; subst; cbn; auto 10. }
  clear Hdoc.
  assert (∀ wi, frame w1 wi →
            w_fs wi = w_fs w ∧ w_clock wi = w_clock w ∧ w_tmpdir wi = w_tmpdir w
            ∧ w_save_error wi = w_save_error w ∧ w_nonstr_text wi = w_nonstr_text w
            ∧ w_trace wi = w_trace w ++ [EvOpen path]) as Hframe.
  { intros wi (?&?&?&?&?&?). destruct Hw1 as (?&?&?&?&?&?).
    repeat split; congruence. }
  assert (frame w1 w1) as Hacc by apply frame_refl. clear Hw1.
  (* the cell writes *)
  repeat match type of H with
  | (lift _ ≫= _) _ = _ => fail 1
  | (_ ≫= _) ?wc = _ =>
      let wj := fresh "wj" in let Hfr := fresh "Hfr" in let Hacc' := fresh "Hacc" in
      apply stable_bind_inv in H as (wj & Hfr & [(? & -> & ->)|(? & H)]);
        [ destruct (Hframe wj (frame_trans _ _ _ Hacc Hfr)) as (?&?&?&?&?&?); by auto 10
        | pose proof (frame_trans _ _ _ Hacc Hfr) as Hacc'; clear Hacc Hfr;
          rename Hacc' into Hacc
        | by auto 10 with stable ]
  end.
  destruct (Hframe _ Hacc) as (Hfs & Hclock & Htmp & Hse & Hnt & Htr).
  (* the file name *)
  unfold output_filename.
  apply lift_bind_inv in H as [(e & -> & -> & ->)|(a0 & -> & H)]; [by auto 10|].
  apply lift_bind_inv in H as [(e & -> & -> & ->)|(a1 & -> & H)]; [by auto 10|].
  apply lift_bind_inv in H as [(e & -> & -> & ->)|(s0 & -> & H)]; [by auto 10|].
  apply lift_bind_inv in H as [(e & -> & -> & ->)|(s1 & -> & H)]; [by auto 10|].
  (* the write *)
  apply bind_inv in H as [(e & H & _)|(tmp & w2 & Htmp2 & H)]; [done|].
  injection Htmp2 as <- <-. rewrite Htmp in H.
  set (fname := py "SUIVI_FORMATION_" ++ _) in *.
  set (out := path_join (w_tmpdir w) fname) in *.
  apply bind_inv in H as [(e & H & ->)|([] & w3 & Hsave & H)].
  - unfold save in H.
    apply bind_inv in H as [(e' & H & [= ->])|(D & w4 & HD & H)].
    + assert (frame wj13 w') as (?&?&?&?&?&?) by (by eapply stable_deref).
      repeat split; try congruence. left. congruence.
    + assert (frame wj13 w4) as (?&?&?&?&?&?) by (by eapply stable_deref).
      unfold write_file in H.
      destruct (w_save_error w4 out) as [e'|] eqn:E; [|done].
      injection H as -> <-. cbn.
      repeat split; try congruence. right. exists out.
      split; [congruence|].
      transitivity ((w_trace w ++ [EvOpen path]) ++ [EvSave out]);
        [congruence|by rewrite <- app_assoc].
  - injection H as <- <-. unfold save in Hsave.
    apply bind_inv in Hsave as [(e' & Hsave & [=])|(D & w4 & HD & Hsave)].
    assert (frame wj13 w4) as (?&?&?&?&?&?) by (by eapply stable_deref).
    unfold write_file in Hsave.
    destruct (w_save_error w4 out) as [e'|] eqn:E; [done|].
    injection Hsave as <-. cbn.
    repeat split; try congruence.
    + exists D. congruence.
    + transitivity ((w_trace w ++ [EvOpen path]) ++ [EvSave out]);
        [congruence|by rewrite <- app_assoc].
Qed.

(** ** The output file name *)

Lemma startswith_drop (p s : pystr) : startswith p s = true → s = p ++ drop (length p) s.
Proof.
  revert s. induction p as [|a p IH]; intros [|b s] H; try done.
  cbn in H. apply andb_prop in H as [Hab H]. apply N.eqb_eq in Hab as ->.
  cbn. f_equal. by apply IH.
Qed.

(** When ["Du "] occurs at the head of the week only, or not at all,
    removing every occurrence and removing the prefix are the same. *)
Lemma replace_Du_prefix (s : pystr) :
  contains (py "Du ") (strip_prefix (py "Du ") s) = false →
  replace (py "Du ") (py "") s = strip_prefix (py "Du ") s.
Proof.
  unfold strip_prefix. destruct (startswith (py "Du ") s) eqn:E; intros H.
  - rewrite (startswith_drop _ _ E) at 1.
    rewrite replace_match by done.
    by rewrite replace_absent.
  - by rewrite replace_absent.
Qed.

Section filename.
Context (w : world) (data : pyval) (path : pystr) (tpl : document).
Hypothesis template_opens : w_fs w !! path = Some (DocxFile tpl).
Hypothesis template_conforms : conforms tpl = true.
Hypothesis record_valid : valid_record data = true.
Hypothesis write_succeeds :
  w_save_error w (path_join (w_tmpdir w) (record_filename data)) = None.

(** C1, as amended.  For a record in which [semaine] is present, the
    semaine component of the output file name is the value with every
    occurrence of ["Du "] removed (wherever it stands, not only at the head),
    then [" au "] replaced by ["_au_"], then every [/] by [-], then every
    space by [_], then leading and trailing whitespace trimmed, in this
    order.  It is the component the specification words whenever ["Du "]
    does not occur past the head of the value. *)
Theorem C1_semaine_component (s : pystr) :
  field data (py "semaine") = Some s →
  let semaine :=
    strip (replace (py " ") (py "_") (replace (py "/") (py "-")
      (replace (py " au ") (py "_au_") (replace (py "Du ") (py "") s)))) in
  (∃ out w',
     fill_suivi_formation data path w
     = (inr (out,
             py "SUIVI_FORMATION_"
             ++ affectation_component (default (py "FORMATION") (field data (py "affectation")))
             ++ py "_" ++ semaine ++ py ".docx"), w'))
  ∧ (contains (py "Du ") (strip_prefix (py "Du ") s) = false →
     semaine = semaine_as_specified s).
Proof using All.
  intros Hs semaine. split.
  - eexists _, _. rewrite (run_fill w data path tpl) by done.
    unfold record_filename. rewrite Hs. reflexivity.
  - intros H. unfold semaine, semaine_as_specified. by rewrite replace_Du_prefix.
Qed.

(** C2.  The filler returns the name
    [SUIVI_FORMATION_{affectation}_{semaine}.docx], whose affectation
    component is the record's [affectation], or [FORMATION] when absent,
    with every [/] replaced by [-] and then every space by [_]; with both
    fields absent the name is [SUIVI_FORMATION_FORMATION_.docx]. *)
Theorem C2_output_filename :
  let affectation :=
    replace (py " ") (py "_") (replace (py "/") (py "-")
      (default (py "FORMATION") (field data (py "affectation")))) in
  let fname :=
    py "SUIVI_FORMATION_" ++ affectation ++ py "_"
    ++ semaine_component (default (py "") (field data (py "semaine"))) ++ py ".docx" in
  (fill_suivi_formation data path w).1 = inr (path_join (w_tmpdir w) fname, fname)
  ∧ (field data (py "affectation") = None → field data (py "semaine") = None →
     fname = py "SUIVI_FORMATION_FORMATION_.docx").
Proof using All.
  intros affectation fname. split.
  - by rewrite (run_fill w data path tpl).
  - intros Ha Hs. unfold fname, affectation. rewrite Ha, Hs. by vm_compute.
Qed.

(** C3.  With [affectation = "CAP 2 OLBER"] and
    [semaine = "Du 24/03/2025 au 26/03/2025"] the name is
    [SUIVI_FORMATION_CAP_2_OLBER_24-03-2025_au_26-03-2025.docx]; and the name
    depends on the data alone: two calls that return, on the same data, in
    any two worlds and with any two templates, return the same name. *)
Theorem C3_example_and_determinism :
  field data (py "affectation") = Some (py "CAP 2 OLBER") →
  field data (py "semaine") = Some (py "Du 24/03/2025 au 26/03/2025") →
  (fill_suivi_formation data path w).1
  = inr (path_join (w_tmpdir w)
           (py "SUIVI_FORMATION_CAP_2_OLBER_24-03-2025_au_26-03-2025.docx"),
         py "SUIVI_FORMATION_CAP_2_OLBER_24-03-2025_au_26-03-2025.docx")
  ∧ (∀ (any : pyval) (p1 p2 : pystr) (w1 w2 : world) (r1 r2 : pystr * pystr)
       (w1' w2' : world),
       fill_suivi_formation any p1 w1 = (inr r1, w1') →
       fill_suivi_formation any p2 w2 = (inr r2, w2') →
       r1.2 = r2.2).
Proof using All.
  intros Ha Hs. split.
  - assert (record_filename data
            = py "SUIVI_FORMATION_CAP_2_OLBER_24-03-2025_au_26-03-2025.docx") as E.
    { unfold record_filename. rewrite Ha, Hs. by vm_compute. }
    rewrite (run_fill w data path tpl) by done. cbn [fst]. by rewrite E.
  - intros any p1 p2 w1 w2 [o1 f1] [o2 f2] w1' w2' H1 H2.
    apply fill_outcome in H1 as (_ & _ & _ & _ & H1 & _).
    apply fill_outcome in H2 as (_ & _ & _ & _ & H2 & _).
    cbn. congruence.
Qed.
End filename.

Lemma C1_semaine_component_witness :
  ∃ out w',
    fill_suivi_formation sample_record template_path sample_world
    = (inr (out, py "SUIVI_FORMATION_CAP_2_OLBER_24-03-2025_au_26-03-2025.docx"), w').
Proof.
  destruct (C1_semaine_component sample_world sample_record template_path blank_template
              eq_refl eq_refl eq_refl eq_refl (py "Du 24/03/2025 au 26/03/2025") eq_refl)
    as [H _].
  exact H.
Defined.

(** The claim C1 as worded fails on a week that mentions ["Du "] after its
    first word: the filler removes that occurrence too. *)
Lemma C1_counterexample :
  (fill_suivi_formation inner_du_record template_path sample_world).1
  = inr (py "/tmp/SUIVI_FORMATION_FORMATION_Semaine_24-03-2025.docx",
         py "SUIVI_FORMATION_FORMATION_Semaine_24-03-2025.docx")
  ∧ semaine_as_specified (py "Semaine Du 24/03/2025") = py "Semaine_Du_24-03-2025"
  ∧ py "SUIVI_FORMATION_FORMATION_Semaine_24-03-2025.docx"
    ≠ py "SUIVI_FORMATION_FORMATION_" ++ semaine_as_specified (py "Semaine Du 24/03/2025")
      ++ py ".docx".
Proof. by vm_compute. Qed.

Lemma C2_output_filename_witness :
  (fill_suivi_formation sample_record template_path sample_world).1
  = inr (py "/tmp/SUIVI_FORMATION_CAP_2_OLBER_24-03-2025_au_26-03-2025.docx",
         py "SUIVI_FORMATION_CAP_2_OLBER_24-03-2025_au_26-03-2025.docx").
Proof.
  destruct (C2_output_filename sample_world sample_record template_path blank_template
              eq_refl eq_refl eq_refl eq_refl) as [H _].
  exact H.
Defined.

Lemma C3_example_and_determinism_witness :
  (fill_suivi_formation sample_record template_path sample_world).1
  = inr (path_join (w_tmpdir sample_world)
           (py "SUIVI_FORMATION_CAP_2_OLBER_24-03-2025_au_26-03-2025.docx"),
         py "SUIVI_FORMATION_CAP_2_OLBER_24-03-2025_au_26-03-2025.docx").
Proof.
  destruct (C3_example_and_determinism sample_world sample_record template_path
              blank_template eq_refl eq_refl eq_refl eq_refl eq_refl eq_refl) as [H _].
  exact H.
Defined.

(** ** The cells of the filled document *)

Lemma cell_source_field (data : pyval) (today k : pystr) (t r c : nat) :
  (k, (t, r, c)) ∈ field_cells → cell_source data today t r c = field data k.
Proof.
  unfold field_cells. intros H.
  repeat (apply elem_of_cons in H as [[= -> -> -> ->]|H]; [reflexivity|]).
  by apply elem_of_nil in H.
Qed.

Lemma cell_source_outside (data : pyval) (today : pystr) (t r c : nat) :
  fixed_cell t r c = false → cell_source data today t r c = None.
Proof.
  destruct t as [|[|[|[|t]]]]; [| done | | | done].
  - do 9 (try destruct r as [|r]); destruct c as [|[|c]]; done.
  - do 2 (try destruct r as [|r]); destruct c as [|[|c]]; done.
  - do 10 (try destruct r as [|r]); destruct c as [|[|[|c]]]; try done;
      intros _; cbn [cell_source]; case_decide; (done || lia).
Qed.

Lemma tables_put (t r c : nat) (o : option pystr) (D : document) (t' : nat) :
  t ≠ t' → put t r c o D !! t' = D !! t'.
Proof. intros. destruct o; [by apply tables_set_cell|done]. Qed.

Lemma tables_put_learners (entries : list pyval) (i : nat) (D : document) (t' : nat) :
  t' ≠ 3 → put_learners i entries D !! t' = D !! t'.
Proof.
  intros Ht. revert i D. induction entries as [|e entries IH]; intros i D; [done|].
  cbn [put_learners]. rewrite IH. unfold put_learner. by rewrite !tables_put.
Qed.

Lemma length_put (t r c : nat) (o : option pystr) (D : document) :
  length (put t r c o D) = length D.
Proof. destruct o; [apply length_set_cell|done]. Qed.

Lemma length_put_learners (entries : list pyval) (i : nat) (D : document) :
  length (put_learners i entries D) = length D.
Proof.
  revert i D. induction entries as [|e entries IH]; intros i D; [done|].
  cbn [put_learners]. rewrite IH. unfold put_learner. by rewrite !length_put.
Qed.

(** Tables other than 0, 2 and 3 are the template's. *)
Lemma tables_filled (data : pyval) (today : pystr) (D : document) (t : nat) :
  t ≠ 0 → t ≠ 2 → t ≠ 3 → filled data today D !! t = D !! t.
Proof.
  intros. unfold filled. rewrite tables_put_learners by done. by rewrite !tables_put.
Qed.

Lemma table3_filled (data : pyval) (today : pystr) (D : document) :
  apprenants_of data = [] → filled data today D !! 3 = D !! 3.
Proof.
  intros E. unfold filled. rewrite E. cbn [take put_learners]. by rewrite !tables_put.
Qed.

Lemma length_filled (data : pyval) (today : pystr) (D : document) :
  length (filled data today D) = length D.
Proof. unfold filled. rewrite length_put_learners. by rewrite !length_put. Qed.

Lemma saved_file (path out : pystr) (D : document) (w : world) :
  w_fs (saved path out D w) !! out = Some (DocxFile D).
Proof. cbn. apply lookup_insert_eq. Qed.

Lemma is_digit_digit (n : Z) : is_digit (digit n) = true.
Proof.
  unfold is_digit, digit.
  pose proof (Z.mod_pos_bound n 10 ltac:(lia)).
  apply andb_true_intro. split; apply N.leb_le; lia.
Qed.

(** [strftime('%d/%m/%Y')] writes two digits, a slash, two digits, a slash
    and four digits. *)
Lemma strftime_shape (d : datetime) : is_DD_MM_YYYY (strftime_dmY d) = true.
Proof.
  unfold strftime_dmY. change (py "/") with [47%N]. cbn [app is_DD_MM_YYYY forallb].
  by rewrite !is_digit_digit.
Qed.

Lemma strftime_sample : strftime_dmY (Date 2025 3 26) = py "26/03/2025".
Proof. by vm_compute. Qed.

Section cells.
Context (w : world) (data : pyval) (path : pystr) (tpl : document).
Hypothesis template_opens : w_fs w !! path = Some (DocxFile tpl).
Hypothesis template_conforms : conforms tpl = true.
Hypothesis record_valid : valid_record data = true.
Hypothesis write_succeeds :
  w_save_error w (path_join (w_tmpdir w) (record_filename data)) = None.

Lemma fill_saves :
  ∃ out fname w',
    fill_suivi_formation data path w = (inr (out, fname), w')
    ∧ w_fs w' !! out = Some (DocxFile (filled data (strftime_dmY (w_clock w)) tpl)).
Proof using All.
  eexists _, _, _. split; [by apply run_fill|]. apply saved_file.
Qed.

(** C4.  The first [min(N, 9)] entries of [apprenants] go to rows 1 to 9 of
    table 3, entry [i] to row [i + 1], with [nom], [prenom] and
    [observation] in columns 0, 1 and 2, each written only when present;
    the header row and the rows past [min(N, 9)] keep the template's text,
    and the filler returns without error whatever [N]; with no entry, or
    [apprenants] absent, table 3 is the template's. *)
Theorem C4_learner_rows :
  ∃ out fname w' D',
    fill_suivi_formation data path w = (inr (out, fname), w')
    ∧ w_fs w' !! out = Some (DocxFile D')
    ∧ (∀ i e, i < 9 → apprenants_of data !! i = Some e →
         cell_at D' 3 (i + 1) 0 = overwrite (field e (py "nom")) (cell_at tpl 3 (i + 1) 0)
         ∧ cell_at D' 3 (i + 1) 1
           = overwrite (field e (py "prenom")) (cell_at tpl 3 (i + 1) 1)
         ∧ cell_at D' 3 (i + 1) 2
           = overwrite (field e (py "observation")) (cell_at tpl 3 (i + 1) 2))
    ∧ (∀ r c, r = 0 ∨ min (length (apprenants_of data)) 9 < r →
         cell_at D' 3 r c = cell_at tpl 3 r c)
    ∧ (apprenants_of data = [] → D' !! 3 = tpl !! 3).
Proof using All.
  destruct fill_saves as (out & fname & w' & Hrun & Hfile).
  exists out, fname, w', (filled data (strftime_dmY (w_clock w)) tpl).
  split; [done|]. split; [done|]. split; [|split].
  - intros i e Hi He. rewrite !cell_at_filled.
    replace (i + 1) with (S i) by lia. cbn [cell_source].
    repeat case_decide; try lia. by rewrite He.
  - intros r c Hr. rewrite cell_at_filled.
    assert (cell_source data (strftime_dmY (w_clock w)) 3 r c = None) as ->;
      [|apply overwrite_None].
    destruct r as [|r]; [by destruct c as [|[|[|c]]]|].
    destruct Hr as [|Hr]; [done|].
    assert (r < 9 → apprenants_of data !! r = None) as Hnone.
    { intros. apply lookup_ge_None. lia. }
    destruct c as [|[|[|c]]]; cbn [cell_source]; try done;
      case_decide; try done; by rewrite Hnone.
  - by apply table3_filled.
Qed.

(** C5.  After the fill, the cell at table 0, row 7, column 1 holds the
    record's [date_redaction] when present and otherwise the current date,
    formatted as [DD/MM/YYYY]; and [date_redaction] is the only field whose
    absence causes a write: the cell of every other absent field keeps the
    template's text. *)
Theorem C5_date_redaction :
  ∃ out fname w' D',
    fill_suivi_formation data path w = (inr (out, fname), w')
    ∧ w_fs w' !! out = Some (DocxFile D')
    ∧ cell_at D' 0 7 1
      = Some (default (strftime_dmY (w_clock w)) (field data (py "date_redaction")))
    ∧ is_DD_MM_YYYY (strftime_dmY (w_clock w)) = true
    ∧ (∀ k t r c, (k, (t, r, c)) ∈ field_cells → field data k = None →
         cell_at D' t r c = cell_at tpl t r c).
Proof using All.
  destruct fill_saves as (out & fname & w' & Hrun & Hfile).
  exists out, fname, w', (filled data (strftime_dmY (w_clock w)) tpl).
  split; [done|]. split; [done|]. split; [|split].
  - rewrite cell_at_filled. cbn [cell_source].
    pose proof (conforms_table0 tpl 7 template_conforms ltac:(lia)) as H.
    apply bool_decide_eq_true_1 in H as [old ->]. done.
  - apply strftime_shape.
  - intros k t r c Hin Hk. rewrite cell_at_filled.
    rewrite (cell_source_field _ _ k) by done. rewrite Hk. apply overwrite_None.
Qed.

(** C6.  When [affectation] is present, the cells at rows 0 and 1 of
    table 0, column 1, both hold its value after the fill. *)
Theorem C6_affectation_twice (s : pystr) :
  field data (py "affectation") = Some s →
  ∃ out fname w' D',
    fill_suivi_formation data path w = (inr (out, fname), w')
    ∧ w_fs w' !! out = Some (DocxFile D')
    ∧ cell_at D' 0 0 1 = Some s
    ∧ cell_at D' 0 1 1 = Some s.
Proof using All.
  intros Hs.
  destruct fill_saves as (out & fname & w' & Hrun & Hfile).
  exists out, fname, w', (filled data (strftime_dmY (w_clock w)) tpl).
  split; [done|]. split; [done|].
  rewrite !cell_at_filled. cbn [cell_source]. rewrite Hs.
  pose proof (conforms_table0 tpl 0 template_conforms ltac:(lia)) as H0.
  pose proof (conforms_table0 tpl 1 template_conforms ltac:(lia)) as H1.
  apply bool_decide_eq_true_1 in H0 as [old0 ->].
  apply bool_decide_eq_true_1 in H1 as [old1 ->]. done.
Qed.

(** C7.  The filler writes only to the fixed cells of tables 0, 2 and 3:
    every other cell, table 1 and any further table keep the template's
    content, and no table is added or removed; and the cell of every absent
    field other than [date_redaction], and of every absent [nom], [prenom]
    or [observation] of a learner, keeps the template's text. *)
Theorem C7_frame :
  ∃ out fname w' D',
    fill_suivi_formation data path w = (inr (out, fname), w')
    ∧ w_fs w' !! out = Some (DocxFile D')
    ∧ (∀ t r c, fixed_cell t r c = false → cell_at D' t r c = cell_at tpl t r c)
    ∧ D' !! 1 = tpl !! 1
    ∧ (∀ t, t ≠ 0 → t ≠ 2 → t ≠ 3 → D' !! t = tpl !! t)
    ∧ length D' = length tpl
    ∧ (∀ k t r c, (k, (t, r, c)) ∈ field_cells → field data k = None →
         cell_at D' t r c = cell_at tpl t r c)
    ∧ (∀ i e c, apprenants_of data !! i = Some e → c < 3 →
         field e (learner_column c) = None →
         cell_at D' 3 (i + 1) c = cell_at tpl 3 (i + 1) c).
Proof using All.
  destruct fill_saves as (out & fname & w' & Hrun & Hfile).
  exists out, fname, w', (filled data (strftime_dmY (w_clock w)) tpl).
  split; [done|]. split; [done|].
  split; [|split; [|split; [|split; [|split]]]].
  - intros t r c H. rewrite cell_at_filled.
    rewrite cell_source_outside by done. apply overwrite_None.
  - by apply tables_filled.
  - intros. by apply tables_filled.
  - apply length_filled.
  - intros k t r c Hin Hk. rewrite cell_at_filled.
    rewrite (cell_source_field _ _ k) by done. rewrite Hk. apply overwrite_None.
  - intros i e c He Hc Hnone. rewrite cell_at_filled.
    assert (cell_source data (strftime_dmY (w_clock w)) 3 (i + 1) c = None) as ->;
      [|apply overwrite_None].
    replace (i + 1) with (S i) by lia.
    destruct c as [|[|[|c]]]; [| | |lia]; cbn [cell_source learner_column] in *;
      case_decide; try done; by rewrite He.
Qed.
End cells.

Lemma C4_learner_rows_witness :
  ∃ out fname w' D',
    fill_suivi_formation sample_record template_path sample_world = (inr (out, fname), w')
    ∧ w_fs w' !! out = Some (DocxFile D')
    ∧ cell_at D' 3 3 0 = Some (py "BERNARD")
    ∧ cell_at D' 3 3 1 = Some (py "...")
    ∧ cell_at D' 3 0 0 = Some (py "...").
Proof.
  destruct (C4_learner_rows sample_world sample_record template_path blank_template
              eq_refl eq_refl eq_refl eq_refl)
    as (out & fname & w' & D' & H1 & H2 & H3 & H4 & _).
  exists out, fname, w', D'. split; [exact H1|]. split; [exact H2|].
  destruct (H3 2 (PDict [(py "nom", PStr (py "BERNARD"));
                         (py "observation", PStr (py "Absent"))])
              ltac:(lia) eq_refl) as (Ha & Hb & _).
  split; [|split].
  - etrans; [exact Ha|]. by vm_compute.
  - etrans; [exact Hb|]. by vm_compute.
  - etrans; [exact (H4 0 0 (or_introl eq_refl))|]. by vm_compute.
Defined.

Lemma C5_date_redaction_witness :
  ∃ out fname w' D',
    fill_suivi_formation sample_record template_path sample_world = (inr (out, fname), w')
    ∧ w_fs w' !! out = Some (DocxFile D')
    ∧ cell_at D' 0 7 1 = Some (py "26/03/2025").
Proof.
  destruct (C5_date_redaction sample_world sample_record template_path blank_template
              eq_refl eq_refl eq_refl eq_refl)
    as (out & fname & w' & D' & H1 & H2 & H3 & _).
  exists out, fname, w', D'. split; [exact H1|]. split; [exact H2|].
  etrans; [exact H3|]. by vm_compute.
Defined.

Lemma C6_affectation_twice_witness :
  ∃ out fname w' D',
    fill_suivi_formation sample_record template_path sample_world = (inr (out, fname), w')
    ∧ w_fs w' !! out = Some (DocxFile D')
    ∧ cell_at D' 0 0 1 = Some (py "CAP 2 OLBER")
    ∧ cell_at D' 0 1 1 = Some (py "CAP 2 OLBER").
Proof.
  exact (C6_affectation_twice sample_world sample_record template_path blank_template
           eq_refl eq_refl eq_refl eq_refl (py "CAP 2 OLBER") eq_refl).
Defined.

Lemma C7_frame_witness :
  ∃ out fname w' D',
    fill_suivi_formation sample_record template_path sample_world = (inr (out, fname), w')
    ∧ w_fs w' !! out = Some (DocxFile D')
    ∧ D' !! 1 = blank_template !! 1
    ∧ cell_at D' 0 4 1 = cell_at blank_template 0 4 1.
Proof.
  destruct (C7_frame sample_world sample_record template_path blank_template
              eq_refl eq_refl eq_refl eq_refl)
    as (out & fname & w' & D' & H1 & H2 & _ & H3 & _ & _ & H4 & _).
  exists out, fname, w', D'. split; [exact H1|]. split; [exact H2|]. split; [exact H3|].
  apply (H4 (py "referent")); [|reflexivity].
  apply (bool_decide_unpack _). by vm_compute.
Defined.

(** ** The handlers *)

Lemma fill_document_raising (T : pystr) (e : exn) (w : world) :
  fill_document T (Request (inl e)) w = (inr (error_response e), w).
Proof. reflexivity. Qed.

Lemma fill_document_falsy (T : pystr) (data : pyval) (w : world) :
  truthy data = false →
  fill_document T (Request (inr data)) w
  = (inr (JsonResponse (jsonify [(py "error", PStr (py "Aucune donnée fournie"))]) 400), w).
Proof.
  intros H. unfold fill_document, try_except, mbind, M_bind, lift. cbn [get_json].
  by rewrite H.
Qed.

Lemma fill_document_failing (T : pystr) (data : pyval) (w : world) (e : exn) (w1 : world) :
  truthy data = true →
  fill_suivi_formation data T w = (inl e, w1) →
  fill_document T (Request (inr data)) w = (inr (error_response e), w1).
Proof.
  intros Ht H. unfold fill_document, try_except, mbind, M_bind, lift. cbn [get_json].
  cbv beta iota. rewrite Ht. cbn [negb]. by rewrite H.
Qed.

Lemma test_fill_failing (T : pystr) (w : world) (e : exn) (w1 : world) :
  fill_suivi_formation (test_data (strftime_dmY (w_clock w))) T w = (inl e, w1) →
  test_fill T w = (inr (error_response e), w1).
Proof.
  intros H. unfold test_fill, try_except, now, mbind, M_bind. cbv beta iota zeta.
  by rewrite H.
Qed.

(** C8.  When the request has no body ([get_json()] gives [None]), the
    handler answers 400 with the error [Aucune donnée fournie] and leaves
    the world as it was: no document is opened, none is written. *)
Theorem C8_missing_body (T : pystr) (w : world) :
  fill_document T (Request (inr PNone)) w
  = (inr (JsonResponse (jsonify [(py "error", PStr (py "Aucune donnée fournie"))]) 400), w).
Proof. by apply fill_document_falsy. Qed.

(** C10.  A body that decodes to a falsy value - [{}], [[]], [false], [0],
    [null], and any other value Python holds false - is answered as a
    missing body is: 400 with [Aucune donnée fournie], the world untouched,
    the filler not called. *)
Theorem C10_falsy_body (T : pystr) (data : pyval) (w : world) :
  In data [PDict []; PList []; PBool false; PInt 0; PNone] ∨ truthy data = false →
  fill_document T (Request (inr data)) w
  = (inr (JsonResponse (jsonify [(py "error", PStr (py "Aucune donnée fournie"))]) 400), w)
  ∧ fill_document T (Request (inr data)) w = fill_document T (Request (inr PNone)) w.
Proof.
  intros H.
  assert (truthy data = false) as Hf.
  { destruct H as [H|H]; [|done].
    cbn [In] in H. destruct H as [<-|[<-|[<-|[<-|[<-|[]]]]]]; reflexivity. }
  rewrite (fill_document_falsy T PNone) by done.
  split; by apply fill_document_falsy.
Qed.

Lemma C10_falsy_body_witness :
  fill_document template_path (Request (inr (PDict []))) sample_world
  = (inr (JsonResponse (jsonify [(py "error", PStr (py "Aucune donnée fournie"))]) 400),
     sample_world).
Proof.
  destruct (C10_falsy_body template_path (PDict []) sample_world (or_intror eq_refl))
    as [H _].
  exact H.
Defined.

(** C9, as amended.  When the filler fails, [/fill-document] and [/test-fill]
    catch the failure and answer 500 with a JSON object whose [error] is the
    failure's message [str(e)] and whose [type] is its class name; so does
    [/fill-document] when decoding the body fails.  The failing call has
    opened the template once and tried to save at most once, and it leaves
    every file as it was.  When the template path does not exist the message
    is python-docx's, which is not empty. *)
Theorem C9_failures_answered_500 (T : pystr) (data : pyval) (w : world) (e : exn) :
  truthy data = true →
  (fill_suivi_formation data T w).1 = inl e →
  let w1 := (fill_suivi_formation data T w).2 in
  let answer :=
    JsonResponse
      (jsonify [(py "error", PStr (exn_str e)); (py "type", PStr (exn_type e))]) 500 in
  fill_document T (Request (inr data)) w = (inr answer, w1)
  ∧ (data = test_data (strftime_dmY (w_clock w)) → test_fill T w = (inr answer, w1))
  ∧ (∀ e', fill_document T (Request (inl e')) w
           = (inr (JsonResponse
                     (jsonify [(py "error", PStr (exn_str e')); (py "type", PStr (exn_type e'))])
                     500), w))
  ∧ w_fs w1 = w_fs w
  ∧ (w_trace w1 = w_trace w ++ [EvOpen T]
     ∨ ∃ out, w_trace w1 = w_trace w ++ [EvOpen T; EvSave out])
  ∧ (w_fs w !! T = None →
     exn_type e = py "PackageNotFoundError"
     ∧ exn_str e = py "Package not found at '" ++ T ++ py "'"
     ∧ exn_str e ≠ []).
Proof.
  intros Ht H w1 answer.
  assert (fill_suivi_formation data T w = (inl e, w1)) as H'.
  { unfold w1. destruct (fill_suivi_formation data T w) as [r w2]. cbn [fst snd] in *.
    by subst r. }
  clear H. rename H' into H.
  split; [by apply fill_document_failing|].
  split; [intros ->; by apply test_fill_failing|].
  split; [intros e'; apply fill_document_raising|].
  pose proof (fill_outcome _ _ _ _ _ H) as (_ & _ & _ & _ & Hfs & Htr).
  split; [done|]. split.
  { destruct Htr as [|(out & _ & ?)]; eauto. }
  intros Hnone. unfold fill_suivi_formation in H.
  apply bind_inv in H as [(e0 & H & [= <-])|(doc & w2 & H & _)];
    unfold Document in H; rewrite Hnone in H; [|done].
  injection H as <- _. cbn [exn_type exn_str]. split; [done|]. split; [done|].
  change (py "Package not found at '") with (80%N :: drop 1 (py "Package not found at '")).
  done.
Qed.

Lemma C9_failures_answered_500_witness :
  fill_document template_path (Request (inr sample_record)) out_of_memory_world
  = (inr (JsonResponse
            (jsonify [(py "error", PStr (exn_str (Exn (py "MemoryError") (py ""))));
                      (py "type", PStr (exn_type (Exn (py "MemoryError") (py ""))))]) 500),
     (fill_suivi_formation sample_record template_path out_of_memory_world).2).
Proof.
  assert ((fill_suivi_formation sample_record template_path out_of_memory_world).1
          = inl (Exn (py "MemoryError") (py ""))) as Hfails.
  { vm_compute. reflexivity. }
  destruct (C9_failures_answered_500 template_path sample_record out_of_memory_world
              (Exn (py "MemoryError") (py "")) eq_refl Hfails) as [H _].
  exact H.
Defined.

(** The claim C9 as worded fails when the failure carries no message: the
    [error] of the answer is then the empty string. *)
Lemma C9_counterexample :
  (fill_document template_path (Request (inr sample_record)) out_of_memory_world).1
  = inr (JsonResponse
           (jsonify [(py "error", PStr []); (py "type", PStr (py "MemoryError"))]) 500).
Proof. by vm_compute. Qed.
